(** * Smart-Wind-Atlas: ASOS wind-speed collection and Weibull fitting

    A shallow embedding of [src/jjinsun/asos_weibull_example.py].

    The script talks to four libraries (requests, pandas, scipy, matplotlib).
    Their calls that decide control flow or produce numbers are taken as
    section variables; everything the script itself does (filtering, the
    checks, the order of the prints and of the file writes, the exits) is
    written out.  Effects are a writer of observable events layered over a
    three-way result: a value, a raised Python exception, or [sys.exit].
    Writing the CSV and each call into matplotlib may raise; one that returns
    is recorded as an event, one that raises leaves none. *)

From Stdlib Require Import List String ZArith Bool Lia PeanoNat.
From Stdlib Require Import Floats.
From Stdlib Require Import Setoid Morphisms.
Import ListNotations.
Local Open Scope string_scope.
Local Open Scope list_scope.

(** ** Python values *)

Set Warnings "-register-all".

(** What [r.json()] can return. A [JObj] holds the items of the dict. *)
Inductive json : Type :=
| JNull
| JBool (b : bool)
| JInt (n : Z)
| JFloat (x : float)
| JStr (s : string)
| JArr (l : list json)
| JObj (kvs : list (string * json)).

(** A pandas column with its dtype: object, float64, int64, bool or
    datetime64. *)
Inductive column : Type :=
| Raw (l : list json)
| Numeric (l : list float)
| Integer (l : list Z)
| Boolean (l : list bool)
| Datetime (l : list (option Z)).

(** A frame: the length of its index and its columns, in order. *)
Record DataFrame : Type := mkFrame {
  nrows : nat;
  cols : list (string * column)
}.

(** ** Observable events *)

(** A printed line is a sequence of fragments: literal text, and the values
    an f-string or a multi-argument [print] interpolates. *)
Inductive frag : Type :=
| Lit (s : string)
| Fixed (digits : nat) (x : float)   (* f"{x:.<digits>f}" *)
| Int (n : nat)                      (* f"{len(df)}" *)
| Repr (j : json)                    (* a dict printed by print *)
| Names (l : list string)            (* list(df.columns) *)
| Frame (df : DataFrame).            (* print(df.head()) *)

(** [np.linspace(start, stop, num)] and [weibull_min.pdf(x, k, scale=c)] are
    only handed on to [plt.plot]; they are kept as terms. *)
Record linspace : Type := Linspace { start : float; stop : float; num : Z }.
Record weibull_pdf : Type := WeibullPdf { grid : linspace; shape : float; scale : float }.

Inductive plt_call : Type :=
| Figure (w h : Z)
| Hist (data : list float) (bins : Z) (density : bool) (alpha : float) (label : string)
| Plot (x : linspace) (y : weibull_pdf) (linewidth : Z) (label : list frag)
| Title (s : string)
| XLabel (s : string)
| YLabel (s : string)
| Legend
| Grid (on : bool) (linestyle : string)
| TightLayout
| SaveFig (path : string) (dpi : Z).

Inductive event : Type :=
| Stdout (line : list frag)
| ToCsv (path : string) (df : DataFrame) (index : bool) (encoding : string)
| Plt (c : plt_call).

(** ** Results and the effect monad *)

(** What a library call gives: its value, or the exception it raises (by
    class name). *)
Inductive Try (A : Type) : Type :=
| Ok (a : A)
| Err (exc : string).
Arguments Ok {A} a.
Arguments Err {A} exc.

(** What a piece of the script gives: on top of the two above, [sys.exit]. *)
Inductive Res (A : Type) : Type :=
| Val (a : A)
| Raise (exc : string)      (* an uncaught Python exception, by class name *)
| SysExit (code : Z).       (* sys.exit(code) *)
Arguments Val {A} a.
Arguments Raise {A} exc.
Arguments SysExit {A} code.

Definition M (A : Type) : Type := (Res A * list event)%type.

Definition ret {A} (a : A) : M A := (Val a, []).

Definition bind {A B} (m : M A) (f : A -> M B) : M B :=
  match m with
  | (Val a, t) => let (r, t') := f a in (r, t ++ t')
  | (Raise e, t) => (Raise e, t)
  | (SysExit c, t) => (SysExit c, t)
  end.

Definition lift {A} (r : Try A) : M A :=
  match r with
  | Ok a => (Val a, [])
  | Err exc => (Raise exc, [])
  end.
Definition raise {A} (exc : string) : M A := (Raise exc, []).
Definition sys_exit {A} (code : Z) : M A := (SysExit code, []).
Definition emit (e : event) : M unit := (Val tt, [e]).
Definition print (line : list frag) : M unit := emit (Stdout line).

Notation "x <- m ;; k" := (bind m (fun x => k))
  (at level 61, m at next level, right associativity).
Notation "' pat <- m ;; k" := (bind m (fun x => match x with pat => k end))
  (at level 61, pat pattern, m at next level, right associativity).
Notation "m ;; k" := (bind m (fun _ => k))
  (at level 61, right associativity).

(** The status the interpreter hands to the operating system: the argument
    of [sys.exit], 1 after an uncaught exception, 0 when [main] returns. *)
Definition exit_status (r : Res unit) : Z :=
  match r with
  | Val _ => 0
  | Raise _ => 1
  | SysExit code => code
  end.

(** ** fit_weibull *)

(** [ws.dropna()] on a float64 Series: NaN is the missing value. *)
Definition dropna (ws : list float) : list float :=
  filter (fun x => negb (is_nan x)) ws.

(** [ws[ws >= 0]]: boolean-mask selection. *)
Definition nonneg (ws : list float) : list float :=
  filter (fun x => (0 <=? x)%float) ws.

(** The two filters every consumer of the series applies first. *)
Definition usable (ws : list float) : list float := nonneg (dropna ws).

Definition WARN_FEW_SAMPLES : list frag :=
  [Lit "[WARN] 샘플 수가 적습니다(100 미만). 결과가 불안정할 수 있습니다."].

Section Fit.

(** [weibull_min.fit(data, floc=loc)] of scipy: the triple (shape, loc,
    scale), or the exception it raises. *)
Variable weibull_min_fit : list float -> float -> Try (float * float * float).

Definition fit_weibull (ws : list float) : M (float * float) :=
  let ws := dropna ws in
  let ws := nonneg ws in
  (if (List.length ws <? 100)%nat then print WARN_FEW_SAMPLES else ret tt) ;;
  '(k, loc, c) <- lift (weibull_min_fit ws 0%float) ;;
  ret (k, c).

End Fit.

(** ** plot_hist_with_weibull *)

(** [ws.empty] on a Series. *)
Definition series_empty (ws : list float) : bool :=
  match ws with [] => true | _ :: _ => false end.

(** [ws.max()] of a float64 Series without NaN; NaN when it has no entry. *)
Definition series_max (ws : list float) : float :=
  match ws with
  | [] => nan
  | x :: rest => fold_left (fun m y => if (m <? y)%float then y else m) rest x
  end.

(** Python's builtin [max(a, b)]: [a], unless [b > a]. *)
Definition py_max (a b : float) : float :=
  if (a <? b)%float then b else a.

Definition WARN_NO_DATA : list frag :=
  [Lit "[WARN] 그릴 데이터가 없습니다."].

Section Plot.

(** What matplotlib answers to a call: it returns, or raises. *)
Variable pyplot : plt_call -> Try unit.

(** One call into matplotlib: recorded when it returns. *)
Definition plt_do (c : plt_call) : M unit :=
  lift (pyplot c) ;; emit (Plt c).

Definition plot_hist_with_weibull
    (ws : list float) (k c : float) (out_png : string) : M unit :=
  let ws := dropna ws in
  let ws := nonneg ws in
  if series_empty ws then
    print WARN_NO_DATA
  else
    plt_do (Figure 8 5) ;;
    plt_do (Hist ws 40 true 0.5%float "Observed wind speed") ;;
    let x := Linspace 0%float (py_max (series_max ws) 15%float) 400 in
    let pdf := WeibullPdf x k c in
    plt_do (Plot x pdf 2
              [Lit "Weibull PDF (k="; Fixed 2 k; Lit ", c="; Fixed 2 c; Lit ")"]) ;;
    plt_do (Title "Wind Speed Distribution & Fitted Weibull") ;;
    plt_do (XLabel "Wind speed (m/s)") ;;
    plt_do (YLabel "Density") ;;
    plt_do Legend ;;
    plt_do (Grid true ":") ;;
    plt_do TightLayout ;;
    plt_do (SaveFig out_png 150) ;;
    print [Lit "[INFO] 그래프 저장: "; Lit out_png].

End Plot.

(** ** Dicts and frames as the script uses them *)

Fixpoint assoc {A : Type} (key : string) (l : list (string * A)) : option A :=
  match l with
  | [] => None
  | (k, v) :: rest => if (k =? key)%string then Some v else assoc key rest
  end.

(** [o.get(key, default)]: only a dict has the method. *)
Definition dict_get (o : json) (key : string) (default : json) : Try json :=
  match o with
  | JObj kvs => Ok (match assoc key kvs with Some v => v | None => default end)
  | _ => Err "AttributeError"
  end.

(** Truth value of a Python object, as [if not items] tests it. *)
Definition truthy (j : json) : bool :=
  match j with
  | JNull => false
  | JBool b => b
  | JInt n => negb (n =? 0)%Z
  | JFloat x => negb (x =? 0)%float
  | JStr s => negb (s =? "")%string
  | JArr l => match l with [] => false | _ :: _ => true end
  | JObj kvs => match kvs with [] => false | _ :: _ => true end
  end.

(** [j != s] for a string literal [s]. *)
Definition differs_from_str (j : json) (s : string) : bool :=
  match j with
  | JStr s' => negb (s' =? s)%string
  | _ => true
  end.

Definition columns (df : DataFrame) : list string := map fst (cols df).

(** [name in df.columns] *)
Definition has_column (df : DataFrame) (name : string) : bool :=
  existsb (fun c => (c =? name)%string) (columns df).

(** [df[name]], when the column is there. *)
Definition getitem (df : DataFrame) (name : string) : option column :=
  assoc name (cols df).

Fixpoint assign (name : string) (v : column) (l : list (string * column))
  : list (string * column) :=
  match l with
  | [] => [(name, v)]
  | (k, c) :: rest =>
      if (k =? name)%string then (k, v) :: rest else (k, c) :: assign name v rest
  end.

(** [df[name] = v]: replaces the column in place, appends a new one. *)
Definition setitem (df : DataFrame) (name : string) (v : column) : DataFrame :=
  mkFrame (nrows df) (assign name v (cols df)).

(** [pd.DataFrame()] *)
Definition empty_frame : DataFrame := mkFrame 0 [].

(** [df.empty]: some axis has length 0. *)
Definition frame_empty (df : DataFrame) : bool :=
  (nrows df =? 0)%nat || match cols df with [] => true | _ :: _ => false end.

Definition take {A : Type} (d : A) (order : list nat) (l : list A) : list A :=
  map (fun i => nth i l d) order.

Definition take_column (order : list nat) (c : column) : column :=
  match c with
  | Raw l => Raw (take JNull order l)
  | Numeric l => Numeric (take nan order l)
  | Integer l => Integer (take 0%Z order l)
  | Boolean l => Boolean (take false order l)
  | Datetime l => Datetime (take None order l)
  end.

(** The rows of [df] in the given order, renumbered from 0
    ([reset_index(drop=True)]: the model keeps no index labels). *)
Definition take_rows (order : list nat) (df : DataFrame) : DataFrame :=
  mkFrame (nrows df) (map (fun nc => (fst nc, take_column order (snd nc))) (cols df)).

Definition head_column (c : column) : column :=
  match c with
  | Raw l => Raw (firstn 5 l)
  | Numeric l => Numeric (firstn 5 l)
  | Integer l => Integer (firstn 5 l)
  | Boolean l => Boolean (firstn 5 l)
  | Datetime l => Datetime (firstn 5 l)
  end.

(** [df.head()] *)
Definition head (df : DataFrame) : DataFrame :=
  mkFrame (Nat.min 5 (nrows df)) (map (fun nc => (fst nc, head_column (snd nc))) (cols df)).

(** ** Configuration *)

Record Config : Type := mkConfig {
  API_KEY : string;
  STATION_ID : string;
  START_DATE : string;
  START_HH : string;
  END_DATE : string;
  END_HH : string
}.

(** The module-level constants of the script. *)
Definition CONFIG : Config := {|
  API_KEY := "여기에_본인_API_키_붙여넣기";
  STATION_ID := "108";
  START_DATE := "20240101";
  START_HH := "00";
  END_DATE := "20241231";
  END_HH := "23"
|}.

Definition NL : string := String (Ascii.ascii_of_nat 10) "".

Definition out_csv_name (cfg : Config) : string :=
  "asos_" ++ STATION_ID cfg ++ "_" ++ START_DATE cfg ++ "_" ++ END_DATE cfg ++ ".csv".

Definition out_png_name (cfg : Config) : string :=
  "asos_" ++ STATION_ID cfg ++ "_" ++ START_DATE cfg ++ "_" ++ END_DATE cfg
          ++ "_weibull.png".

(** ** The script *)

(** What [requests.get] hands back: the HTTP status and what [r.json()]
    gives (the decoded body, or the decoder's exception). *)
Record Response : Type := mkResponse {
  status_code : Z;
  json_body : Try json
}.

(** [r.raise_for_status()]: HTTPError for a 4xx or 5xx status. *)
Definition raise_for_status (r : Response) : M unit :=
  if ((400 <=? status_code r) && (status_code r <? 600))%Z
  then raise "HTTPError"
  else ret tt.

(** [df[name]] as an expression: KeyError when the column is missing. *)
Definition df_get (df : DataFrame) (name : string) : M column :=
  match getitem df name with
  | Some c => ret c
  | None => raise "KeyError"
  end.

(** An integer as numpy converts it to float64: rounded to nearest. *)
Definition float_of_int (n : Z) : float :=
  SF2Prim (binary_normalize prec emax n 0 false).

(** The values of a numeric Series as float64, which is what the
    comparison with 0, scipy and matplotlib compute on: int64 and bool
    convert as numpy converts them. An object or datetime column has no such
    view. *)
Definition numeric_view (c : column) : option (list float) :=
  match c with
  | Numeric l => Some l
  | Integer l => Some (map float_of_int l)
  | Boolean l => Some (map (fun b : bool => if b then 1%float else 0%float) l)
  | Raw _ | Datetime _ => None
  end.

(** The Series [main] hands to [fit_weibull] and to
    [plot_hist_with_weibull]. On a column that is not numeric the
    comparison [ws >= 0] is a TypeError in pandas. *)
Definition float64_values (c : column) : M (list float) :=
  match numeric_view c with
  | Some l => ret l
  | None => raise "TypeError"
  end.

Definition try_bind {A B} (r : Try A) (f : A -> Try B) : Try B :=
  match r with
  | Ok a => f a
  | Err exc => Err exc
  end.

(** [j.get("response", {}).get("header", {}).get("resultCode")] *)
Definition result_code_of (j : json) : Try json :=
  try_bind (dict_get j "response" (JObj [])) (fun response =>
  try_bind (dict_get response "header" (JObj [])) (fun header =>
  dict_get header "resultCode" JNull)).

(** [j.get("response", {}).get("header")] *)
Definition header_of (j : json) : Try json :=
  try_bind (dict_get j "response" (JObj [])) (fun response =>
  dict_get response "header" JNull).

(** [j.get("response", {}).get("body", {}).get("items", {}).get("item", [])] *)
Definition items_of (j : json) : Try json :=
  try_bind (dict_get j "response" (JObj [])) (fun response =>
  try_bind (dict_get response "body" (JObj [])) (fun body =>
  try_bind (dict_get body "items" (JObj [])) (fun items =>
  dict_get items "item" (JArr [])))).

(** The query of [fetch_asos_hourly]. *)
Definition query (api_key stn_id start_dt start_hh end_dt end_hh : string)
  : list (string * string) :=
  [ ("serviceKey", api_key); ("dataType", "JSON"); ("dataCd", "ASOS");
    ("dateCd", "HR"); ("startDt", start_dt); ("startHh", start_hh);
    ("endDt", end_dt); ("endHh", end_hh); ("stnIds", stn_id) ].

Definition ERROR_NO_DATA : list frag :=
  [Lit "[ERROR] 수신된 데이터가 없습니다. 파라미터/기간/관측소 코드를 확인하세요."].

Definition ERROR_NO_WS : list frag :=
  [Lit "[ERROR] 'ws'(풍속) 컬럼이 없습니다. API 응답 스키마를 먼저 확인하세요."].

Definition HINT_NO_WS : list frag :=
  [Lit "       print(df.head())로 컬럼명을 확인한 뒤, 풍속 컬럼명을 코드에서 수정하십시오."].

Definition BASE_URL : string :=
  "http://apis.data.go.kr/1360000/AsosHourlyInfoService/getWthrDataList".

Section Script.

(** [requests.get(url, params=..., timeout=...)] *)
Variable requests_get : string -> list (string * string) -> Z -> Try Response.
(** [pd.DataFrame(items)] *)
Variable pd_DataFrame : json -> Try DataFrame.
(** [pd.to_datetime(col, errors="coerce")]: [None] is NaT. *)
Variable pd_to_datetime : column -> Try (list (option Z)).
(** The row order [sort_values] computes for a key column. *)
Variable argsort : list (option Z) -> list nat.
(** [pd.to_numeric(col, errors="coerce")]: a column of the dtype pandas
    picks. *)
Variable pd_to_numeric : column -> Try column.
(** [weibull_min.fit(data, floc=loc)] *)
Variable weibull_min_fit : list float -> float -> Try (float * float * float).
(** [Series.mean()] *)
Variable series_mean : list float -> float.
(** [df.to_csv(path, index=..., encoding=...)] *)
Variable to_csv : string -> DataFrame -> bool -> string -> Try unit.
(** What matplotlib answers to a call. *)
Variable pyplot : plt_call -> Try unit.

(** The loop [for col in [...]: if col in df.columns: df[col] = to_numeric(df[col])]. *)
Fixpoint to_numeric_columns (names : list string) (df : DataFrame) : M DataFrame :=
  match names with
  | [] => ret df
  | col :: rest =>
      df <- (if has_column df col then
               c <- df_get df col ;;
               v <- lift (pd_to_numeric c) ;;
               ret (setitem df col v)
             else ret df) ;;
      to_numeric_columns rest df
  end.

Definition fetch_asos_hourly
    (api_key stn_id start_dt start_hh end_dt end_hh : string) : M DataFrame :=
  let base_url := BASE_URL in
  let params := query api_key stn_id start_dt start_hh end_dt end_hh in
  print [Lit "[INFO] 요청:"; Lit " "; Lit base_url] ;;
  r <- lift (requests_get base_url params 60) ;;
  raise_for_status r ;;
  j <- lift (json_body r) ;;
  resultCode <- lift (result_code_of j) ;;
  (if differs_from_str resultCode "00" then
     header <- lift (header_of j) ;;
     print [Lit "[WARN] API header:"; Lit " "; Repr header]
   else ret tt) ;;
  items <- lift (items_of j) ;;
  if negb (truthy items) then
    print ERROR_NO_DATA ;;
    ret empty_frame
  else
    df <- lift (pd_DataFrame items) ;;
    print [Lit "[INFO] 컬럼:"; Lit " "; Names (columns df)] ;;
    df <- (if has_column df "tm" then
             tm <- df_get df "tm" ;;
             tm <- lift (pd_to_datetime tm) ;;
             let df := setitem df "tm" (Datetime tm) in
             ret (take_rows (argsort tm) df)
           else ret df) ;;
    to_numeric_columns ["ws"; "wd"; "ta"; "hm"] df.

Definition main (cfg : Config) : M unit :=
  (* 1) fetch *)
  df <- fetch_asos_hourly (API_KEY cfg) (STATION_ID cfg) (START_DATE cfg)
                          (START_HH cfg) (END_DATE cfg) (END_HH cfg) ;;
  (if frame_empty df then sys_exit 1 else ret tt) ;;
  (* 2) CSV *)
  let out_csv := out_csv_name cfg in
  lift (to_csv out_csv df false "utf-8-sig") ;;
  emit (ToCsv out_csv df false "utf-8-sig") ;;
  print [Lit "[INFO] CSV 저장: "; Lit out_csv; Lit " (rows="; Int (nrows df); Lit ")"] ;;
  (* 3) wind-speed column and fit *)
  (if negb (has_column df "ws") then
     print ERROR_NO_WS ;;
     print HINT_NO_WS ;;
     print [Frame (head df)] ;;
     sys_exit 1
   else ret tt) ;;
  ws <- df_get df "ws" ;;
  ws <- float64_values ws ;;
  '(k, c) <- fit_weibull weibull_min_fit ws ;;
  print [Lit "[RESULT] Weibull params: shape k="; Fixed 4 k;
         Lit ", scale c="; Fixed 4 c] ;;
  (* 4) plot *)
  let out_png := out_png_name cfg in
  plot_hist_with_weibull pyplot ws k c out_png ;;
  (* 5) summary *)
  let mean_ws := series_mean (dropna ws) in
  print [Lit "[INFO] 기간 평균 풍속: "; Fixed 3 mean_ws; Lit " m/s"] ;;
  print [Lit (NL ++ "[다음 단계 아이디어]")] ;;
  print [Lit "- 관측소 다중 병합: 인근 ASOS/AWS와 결합해 신뢰도 향상"] ;;
  print [Lit "- 허브고도 보정: 로그법/파워법으로 10m→허브 높이(예: 100m) 보정"] ;;
  print [Lit "- 터빈 파워커브 적용: 빈도×파워커브 컨볼루션으로 AEP 계산"] ;;
  print [Lit "- 계절/시간대별 분포: 풍향장미, 계절성 분석"].

End Script.

(** ** Vocabulary of the statements *)

(** The pair [fit_weibull] returns out of the library's triple. *)
Definition shape_scale (r : Try (float * float * float)) : Res (float * float) :=
  match r with
  | Ok (k, _, c) => Val (k, c)
  | Err exc => Raise exc
  end.

(** The paths written by the writes of a run that returned ([to_csv],
    [savefig]), oldest first; a write that raised is not counted. No event
    removes a file. *)
Definition files_written (t : list event) : list string :=
  flat_map (fun e =>
    match e with
    | ToCsv path _ _ _ => [path]
    | Plt (SaveFig path _) => [path]
    | _ => []
    end) t.

(** The calls the plotting step makes when there is data, in order. *)
Definition plot_calls (ws : list float) (k c : float) (out_png : string)
  : list plt_call :=
  let x := Linspace 0%float (py_max (series_max ws) 15%float) 400 in
  [ Figure 8 5;
    Hist ws 40 true 0.5%float "Observed wind speed";
    Plot x (WeibullPdf x k c) 2
      [Lit "Weibull PDF (k="; Fixed 2 k; Lit ", c="; Fixed 2 c; Lit ")"];
    Title "Wind Speed Distribution & Fitted Weibull";
    XLabel "Wind speed (m/s)";
    YLabel "Density";
    Legend;
    Grid true ":";
    TightLayout;
    SaveFig out_png 150 ].

Definition SAVED_LINE (out_png : string) : list frag :=
  [Lit "[INFO] 그래프 저장: "; Lit out_png].

(** What the plotting step leaves when every call returned. *)
Definition rendering (ws : list float) (k c : float) (out_png : string)
  : list event :=
  map Plt (plot_calls ws k c out_png) ++ [Stdout (SAVED_LINE out_png)].

(** Calls made one after the other until one raises, then [rest]. *)
Definition play_then (pyplot : plt_call -> Try unit) (calls : list plt_call)
    (rest : M unit) : M unit :=
  fold_right (fun c m => plt_do pyplot c ;; m) rest calls.

(** A file name with the extension of a PNG image, the raster format
    [savefig] picks for it. *)
Definition png_name (path : string) : Prop :=
  exists stem, path = (stem ++ ".png")%string.

(** An event that writes a file does so under the name built from [cfg]. *)
Definition names_from (cfg : Config) (e : event) : Prop :=
  match e with
  | ToCsv path _ _ _ =>
      path = ("asos_" ++ STATION_ID cfg ++ "_" ++ START_DATE cfg ++ "_"
                      ++ END_DATE cfg ++ ".csv")%string
  | Plt (SaveFig path _) =>
      path = ("asos_" ++ STATION_ID cfg ++ "_" ++ START_DATE cfg ++ "_"
                      ++ END_DATE cfg ++ "_weibull.png")%string
  | _ => True
  end.

(** [sure m]: the piece [m] never leaves through [sys.exit]. *)
Definition sure {A : Type} (m : M A) : Prop := forall code, fst m <> SysExit code.

(** [after Q m]: a value that [m] returns satisfies [Q]. *)
Definition after {A : Type} (Q : A -> Prop) (m : M A) : Prop :=
  forall a t, m = (Val a, t) -> Q a.

(** A property that every printed line has. *)
Definition holds_of_prints (P : event -> Prop) : Prop :=
  forall line, P (Stdout line).

(** ** A canned environment

    Stand-ins for the libraries, enough to run the script on small replies. *)
Module Canned.

Definition observation (tm : Z) (ws : float) : json :=
  JObj [("tm", JInt tm); ("ws", JFloat ws); ("wd", JFloat 270%float)].

(** The envelope of the API around an item list. *)
Definition reply (items : json) : json :=
  JObj [("response",
         JObj [("header", JObj [("resultCode", JStr "00")]);
               ("body", JObj [("items", JObj [("item", items)])])])].

Definition three_items : json :=
  JArr [observation 1 2.5%float; observation 2 4%float; observation 3 7.5%float].

(** Items that carry no wind speed. *)
Definition no_ws_items : json :=
  JArr [JObj [("tm", JInt 1); ("ta", JFloat 3.5%float)]].

Definition answers (status : Z) (items : json)
  : string -> list (string * string) -> Z -> Try Response :=
  fun _ _ _ => Ok (mkResponse status (Ok (reply items))).

Definition cell (key : string) (row : json) : json :=
  match row with
  | JObj kvs => match assoc key kvs with Some v => v | None => JNull end
  | _ => JNull
  end.

(** A frame out of a list of records, columns named by the first record. *)
Definition DataFrame_of (items : json) : Try DataFrame :=
  match items with
  | JArr (JObj first :: rest) =>
      let rows := JObj first :: rest in
      Ok (mkFrame (List.length rows)
            (map (fun key => (key, Raw (map (cell key) rows))) (map fst first)))
  | _ => Err "ValueError"
  end.

Definition to_datetime (c : column) : Try (list (option Z)) :=
  match c with
  | Raw l => Ok (map (fun j => match j with JInt n => Some n | _ => None end) l)
  | Datetime l => Ok l
  | Integer l => Ok (map Some l)
  | Numeric l => Ok (map (fun _ => None) l)
  | Boolean l => Ok (map (fun _ => None) l)
  end.

Definition in_order (keys : list (option Z)) : list nat :=
  seq 0 (List.length keys).

Definition whole (j : json) : option Z :=
  match j with JInt n => Some n | _ => None end.

Fixpoint all_whole (l : list json) : option (list Z) :=
  match l with
  | [] => Some []
  | j :: rest =>
      match whole j, all_whole rest with
      | Some n, Some ns => Some (n :: ns)
      | _, _ => None
      end
  end.

(** Whole numbers give int64, anything else float64 with NaN for what is
    not a number. *)
Definition to_numeric (c : column) : Try column :=
  match c with
  | Raw l =>
      match all_whole l with
      | Some ns => Ok (Integer ns)
      | None =>
          Ok (Numeric (map (fun j => match j with
                                     | JFloat x => x
                                     | JInt n => float_of_int n
                                     | _ => nan
                                     end) l))
      end
  | Numeric l => Ok (Numeric l)
  | Integer l => Ok (Integer l)
  | Boolean l => Ok (Boolean l)
  | Datetime l => Ok (Integer (map (fun t => match t with Some n => n | None => 0%Z end) l))
  end.

(** A disk that takes every file. *)
Definition to_csv (path : string) (df : DataFrame) (index : bool) (encoding : string)
  : Try unit := Ok tt.

(** A disk that is full. *)
Definition to_csv_fails (path : string) (df : DataFrame) (index : bool)
    (encoding : string) : Try unit := Err "OSError".

(** A matplotlib that refuses a histogram of data with an infinite value
    and takes every other call. *)
Definition pyplot (c : plt_call) : Try unit :=
  match c with
  | Hist data _ _ _ _ =>
      if existsb is_infinity data then Err "ValueError" else Ok tt
  | _ => Ok tt
  end.

(** A fitter that raises on an empty array; fixed parameters otherwise. *)
Definition fit (data : list float) (floc : float) : Try (float * float * float) :=
  match data with
  | [] => Err "ValueError"
  | _ :: _ => Ok (2%float, floc, 5%float)
  end.

(** A fitter that answers on every array, the empty one included. *)
Definition lenient_fit (data : list float) (floc : float)
  : Try (float * float * float) :=
  Ok (2%float, floc, 5%float).

Definition mean (l : list float) : float :=
  match l with
  | [] => nan
  | x :: _ => x
  end.

(** The script over the canned libraries, for a given network. *)
Definition run (net : string -> list (string * string) -> Z -> Try Response)
  : M unit :=
  main net DataFrame_of to_datetime in_order to_numeric fit mean to_csv pyplot
       CONFIG.

Definition fetched (net : string -> list (string * string) -> Z -> Try Response)
  : M DataFrame :=
  fetch_asos_hourly net DataFrame_of to_datetime in_order to_numeric
    (API_KEY CONFIG) (STATION_ID CONFIG) (START_DATE CONFIG) (START_HH CONFIG)
    (END_DATE CONFIG) (END_HH CONFIG).

(** A fixture of 150 wind speeds. *)
Definition fixture_150 : list float :=
  flat_map (fun _ => [2.5%float; 4%float; 7.5%float]) (seq 0 50).

(** Valid readings mixed with gaps and negative values. *)
Definition mixed_sample : list float :=
  [3%float; nan; (-2)%float; 5.5%float; 0%float; nan; 9%float].

End Canned.

(** ** More vocabulary: the tail of the fetch, lines, dtypes *)

Definition REQUEST_LINE : list frag :=
  [Lit "[INFO] 요청:"; Lit " "; Lit BASE_URL].

Definition HEADER_LINE (header : json) : list frag :=
  [Lit "[WARN] API header:"; Lit " "; Repr header].

Definition COLUMNS_LINE (df : DataFrame) : list frag :=
  [Lit "[INFO] 컬럼:"; Lit " "; Names (columns df)].

Definition CSV_LINE (cfg : Config) (df : DataFrame) : list frag :=
  [Lit "[INFO] CSV 저장: "; Lit (out_csv_name cfg); Lit " (rows=";
   Int (nrows df); Lit ")"].

Definition RESULT_LINE (k c : float) : list frag :=
  [Lit "[RESULT] Weibull params: shape k="; Fixed 4 k; Lit ", scale c="; Fixed 4 c].

Definition MEAN_LINE (mean_ws : float) : list frag :=
  [Lit "[INFO] 기간 평균 풍속: "; Fixed 3 mean_ws; Lit " m/s"].

(** The closing lines of [main]. *)
Definition NEXT_STEPS : list event :=
  [ Stdout [Lit (NL ++ "[다음 단계 아이디어]")];
    Stdout [Lit "- 관측소 다중 병합: 인근 ASOS/AWS와 결합해 신뢰도 향상"];
    Stdout [Lit "- 허브고도 보정: 로그법/파워법으로 10m→허브 높이(예: 100m) 보정"];
    Stdout [Lit "- 터빈 파워커브 적용: 빈도×파워커브 컨볼루션으로 AEP 계산"];
    Stdout [Lit "- 계절/시간대별 분포: 풍향장미, 계절성 분석"] ].

(** A run that only printed. *)
Definition only_prints (t : list event) : Prop :=
  Forall (fun e => exists line, e = Stdout line) t.

(** Two columns of one dtype. *)
Definition same_dtype (c1 c2 : column) : Prop :=
  match c1, c2 with
  | Raw _, Raw _ | Numeric _, Numeric _ | Integer _, Integer _
  | Boolean _, Boolean _ | Datetime _, Datetime _ => True
  | _, _ => False
  end.

(** The columns [fetch_asos_hourly] converts. *)
Definition CONVERTED : list string := ["tm"; "ws"; "wd"; "ta"; "hm"].

Section Tabulate.

Variable pd_DataFrame : json -> Try DataFrame.
Variable pd_to_datetime : column -> Try (list (option Z)).
Variable argsort : list (option Z) -> list nat.
Variable pd_to_numeric : column -> Try column.

(** What [fetch_asos_hourly] does once the item list is in hand (from
    [if not items] to the end); lemma [fetch_on_reply] ties it to the
    function. *)
Definition tabulate (items : json) : M DataFrame :=
  if negb (truthy items) then
    print ERROR_NO_DATA ;;
    ret empty_frame
  else
    df <- lift (pd_DataFrame items) ;;
    print [Lit "[INFO] 컬럼:"; Lit " "; Names (columns df)] ;;
    df <- (if has_column df "tm" then
             tm <- df_get df "tm" ;;
             tm <- lift (pd_to_datetime tm) ;;
             let df := setitem df "tm" (Datetime tm) in
             ret (take_rows (argsort tm) df)
           else ret df) ;;
    to_numeric_columns pd_to_numeric ["ws"; "wd"; "ta"; "hm"] df.

End Tabulate.

(** ** More canned replies *)
Module Replies.

(** The envelope with a given result code. *)
Definition reply_with_code (code : json) (items : json) : json :=
  JObj [("response",
         JObj [("header", JObj [("resultCode", code); ("resultMsg", JStr "MSG")]);
               ("body", JObj [("items", JObj [("item", items)])])])].

(** An envelope whose "items" is a string instead of a dict. *)
Definition reply_items_string : json :=
  JObj [("response",
         JObj [("header", JObj [("resultCode", JStr "03")]);
               ("body", JObj [("items", JStr "")])])].

(** A document that is not the envelope at all. *)
Definition reply_other : json :=
  JObj [("error", JStr "SERVICE_KEY_IS_NOT_REGISTERED_ERROR")].

Definition serves (status : Z) (body : Try json)
  : string -> list (string * string) -> Z -> Try Response :=
  fun _ _ _ => Ok (mkResponse status body).

(** A network that is down. *)
Definition down : string -> list (string * string) -> Z -> Try Response :=
  fun _ _ _ => Err "ConnectionError".

(** Observations with every converted column and one that is not. *)
Definition full_items : json :=
  JArr [ JObj [("tm", JInt 2); ("stnNm", JStr "Seoul"); ("ws", JFloat 3.5%float);
               ("wd", JFloat 90%float); ("ta", JFloat 1.5%float);
               ("hm", JFloat 40%float)];
         JObj [("tm", JInt 1); ("stnNm", JStr "Seoul"); ("ws", JFloat (-1)%float);
               ("wd", JFloat 180%float); ("ta", JFloat 2.5%float);
               ("hm", JFloat 45%float)] ].

(** Observations whose wind speeds are all missing. *)
Definition all_missing_items : json :=
  JArr [ JObj [("tm", JInt 1); ("ws", JNull)];
         JObj [("tm", JInt 2); ("ws", JStr "")] ].

Definition run (net : string -> list (string * string) -> Z -> Try Response)
    (fit : list float -> float -> Try (float * float * float)) : M unit :=
  main net Canned.DataFrame_of Canned.to_datetime Canned.in_order
       Canned.to_numeric fit Canned.mean Canned.to_csv Canned.pyplot CONFIG.

Definition fetched (net : string -> list (string * string) -> Z -> Try Response)
  : M DataFrame :=
  fetch_asos_hourly net Canned.DataFrame_of Canned.to_datetime Canned.in_order
    Canned.to_numeric
    (API_KEY CONFIG) (STATION_ID CONFIG) (START_DATE CONFIG) (START_HH CONFIG)
    (END_DATE CONFIG) (END_HH CONFIG).

End Replies.

(** * Properties *)

(** ** The filters *)

Lemma filter_all {A : Type} (p : A -> bool) (l : list A) :
  Forall (fun x => p x = true) l -> filter p l = l.
Proof.
  induction 1 as [|x l Hx _ IH]; simpl.
  - reflexivity.
  - rewrite Hx, IH. reflexivity.
Qed.

Lemma filter_twice {A : Type} (p : A -> bool) (l : list A) :
  filter p (filter p l) = filter p l.
Proof.
  apply filter_all, Forall_forall.
  intros x Hx. apply filter_In in Hx. tauto.
Qed.

Lemma dropna_usable (ws : list float) : dropna (usable ws) = usable ws.
Proof.
  unfold usable, nonneg, dropna.
  apply filter_all, Forall_forall.
  intros x Hx.
  apply filter_In in Hx. destruct Hx as [Hx _].
  apply filter_In in Hx. tauto.
Qed.

Lemma usable_idem (ws : list float) : usable (usable ws) = usable ws.
Proof.
  unfold usable at 1. rewrite dropna_usable.
  unfold usable, nonneg. apply filter_twice.
Qed.

(** The entries that survive are those that are defined and not below zero. *)
Lemma usable_In (ws : list float) (x : float) :
  In x (usable ws) <->
  In x ws /\ is_nan x = false /\ (0 <=? x)%float = true.
Proof.
  unfold usable, nonneg, dropna.
  rewrite !filter_In, negb_true_iff. tauto.
Qed.

(** ** fit_weibull *)

(** The whole run of [fit_weibull], for any fitter: the library is asked once,
    on the usable entries with [floc=0]; the warning line depends on their
    count alone. *)
Lemma fit_weibull_run
    (fit : list float -> float -> Try (float * float * float)) (ws : list float) :
  fit_weibull fit ws =
    (shape_scale (fit (usable ws) 0%float),
     if (List.length (usable ws) <? 100)%nat then [Stdout WARN_FEW_SAMPLES] else []).
Proof.
  unfold fit_weibull. fold (usable ws).
  destruct (List.length (usable ws) <? 100)%nat;
    destruct (fit (usable ws) 0%float) as [[[k loc] c]|exc]; reflexivity.
Qed.

(** C1, as the code has it: on a sample with no usable entry [fit_weibull]
    has no guard of its own. It prints the low-sample warning (0 is below
    100) and hands the empty array to the library fit with [floc=0]; what
    comes back is the library's outcome, its exception if it raises one, and
    otherwise the shape and scale it returned. *)
Theorem fit_weibull_empty_sample
    (fit : list float -> float -> Try (float * float * float)) (ws : list float) :
  usable ws = [] ->
  fit_weibull fit ws =
    (shape_scale (fit [] 0%float), [Stdout WARN_FEW_SAMPLES]).
Proof.
  intros Hempty. rewrite fit_weibull_run, Hempty. reflexivity.
Qed.

Lemma fit_weibull_empty_sample_witness :
  usable [nan; (-1)%float] = [] /\
  fit_weibull Canned.fit [nan; (-1)%float] =
    (shape_scale (Canned.fit [] 0%float), [Stdout WARN_FEW_SAMPLES]).
Proof.
  split.
  - reflexivity.
  - apply (fit_weibull_empty_sample Canned.fit [nan; (-1)%float]). reflexivity.
Defined.

(** C1, as stated, fails on the sample [NaN, -1]: nothing in it is usable,
    yet the run prints the warning and calls the library. With a fitter that
    refuses an empty array the exception is the library's own; with one that
    answers, numbers come back; and under no fitter is the run the bare
    failure with InsufficientDataError. *)
Lemma fit_weibull_empty_counterexample :
  usable [nan; (-1)%float] = [] /\
  fit_weibull Canned.fit [nan; (-1)%float] =
    (Raise "ValueError", [Stdout WARN_FEW_SAMPLES]) /\
  fit_weibull Canned.lenient_fit [nan; (-1)%float] =
    (Val (2%float, 5%float), [Stdout WARN_FEW_SAMPLES]) /\
  ~ (exists fit, fit_weibull fit [nan; (-1)%float] =
                   (Raise "InsufficientDataError", [])).
Proof.
  repeat split.
  intros [fit H]. rewrite fit_weibull_run in H.
  apply (f_equal snd) in H. discriminate H.
Qed.

(** C3: the outcome and the printed lines of [fit_weibull] are those of the
    same call on the pre-stripped sample (missing and negative entries
    removed); the library sees the valid entries only, and the low-sample
    test counts them only. *)
Theorem fit_weibull_prestripped
    (fit : list float -> float -> Try (float * float * float)) (ws : list float) :
  fit_weibull fit ws = fit_weibull fit (usable ws) /\
  (forall x, In x (usable ws) <->
             In x ws /\ is_nan x = false /\ (0 <=? x)%float = true) /\
  fst (fit_weibull fit ws) = shape_scale (fit (usable ws) 0%float) /\
  snd (fit_weibull fit ws) =
    (if (List.length (usable ws) <? 100)%nat then [Stdout WARN_FEW_SAMPLES] else []).
Proof.
  rewrite (fit_weibull_run fit (usable ws)), usable_idem, fit_weibull_run.
  split; [reflexivity|]. split; [apply usable_In|]. split; reflexivity.
Qed.

(** C4: with between 1 and 99 usable entries [fit_weibull] asks the library
    exactly as it does for a sample of 100 or more and returns what it
    answers; the one difference is the warning line. It raises nothing that
    the library did not raise. *)
Theorem fit_weibull_low_sample
    (fit : list float -> float -> Try (float * float * float)) (ws : list float) :
  (0 < List.length (usable ws) < 100)%nat ->
  fit_weibull fit ws =
    (shape_scale (fit (usable ws) 0%float), [Stdout WARN_FEW_SAMPLES]) /\
  (forall exc, fst (fit_weibull fit ws) = Raise exc ->
               fit (usable ws) 0%float = Err exc) /\
  (forall code, fst (fit_weibull fit ws) <> SysExit code) /\
  (forall ws', (100 <= List.length (usable ws'))%nat ->
     fit_weibull fit ws' = (shape_scale (fit (usable ws') 0%float), [])).
Proof.
  intros [_ Hlt]. rewrite fit_weibull_run.
  apply Nat.ltb_lt in Hlt. rewrite Hlt.
  repeat split.
  - simpl. intros exc H.
    destruct (fit (usable ws) 0%float) as [[[k loc] c]|e]; simpl in H;
      congruence.
  - simpl. intros code H.
    destruct (fit (usable ws) 0%float) as [[[k loc] c]|e]; discriminate H.
  - intros ws' Hge. rewrite fit_weibull_run.
    apply Nat.ltb_ge in Hge. rewrite Hge. reflexivity.
Qed.

Lemma fit_weibull_low_sample_witness :
  (0 < List.length (usable Canned.mixed_sample) < 100)%nat /\
  fit_weibull Canned.fit Canned.mixed_sample =
    (Val (2%float, 5%float), [Stdout WARN_FEW_SAMPLES]).
Proof.
  split.
  - vm_compute. lia.
  - apply (fit_weibull_low_sample Canned.fit Canned.mixed_sample).
    vm_compute. lia.
Defined.

(** ** plot_hist_with_weibull *)

Lemma series_empty_nil (ws : list float) : series_empty ws = true <-> ws = [].
Proof. destruct ws; simpl; split; congruence. Qed.

(** The order of floats, from the specification of [<?]. *)
Lemma SFcompare_Lt_trans (a b c : spec_float) :
  SFcompare a b = Some Lt -> SFcompare b c = Some Lt -> SFcompare a c = Some Lt.
Proof.
  destruct a as [sa|sa| |sa ma ea], b as [sb|sb| |sb mb eb], c as [sc|sc| |sc mc ec];
    simpl; try discriminate; try reflexivity;
    repeat match goal with s : bool |- _ => destruct s end;
    simpl; try discriminate; try reflexivity; try (intros; assumption).
  all: destruct (Z.compare_spec ea eb), (Z.compare_spec eb ec), (Z.compare_spec ea ec);
    try discriminate; try reflexivity; try lia; subst.
  all: try (intros; exfalso; lia).
  all: fold (Pos.compare ma mb); fold (Pos.compare mb mc); fold (Pos.compare ma mc).
  all: destruct (Pos.compare_spec ma mb), (Pos.compare_spec mb mc),
         (Pos.compare_spec ma mc);
    simpl; try discriminate; try reflexivity; try lia.
Qed.

Lemma SFcompare_refl_not_Lt (a : spec_float) : SFcompare a a <> Some Lt.
Proof.
  destruct a as [s|s| |s m e]; simpl; try discriminate.
  - destruct s; discriminate.
  - destruct s; rewrite Z.compare_refl; fold (Pos.compare m m);
      rewrite Pos.compare_refl; discriminate.
Qed.

Lemma float_ltb_trans (x y z : float) :
  (x <? y)%float = true -> (y <? z)%float = true -> (x <? z)%float = true.
Proof.
  rewrite !ltb_spec. unfold SFltb.
  destruct (SFcompare (Prim2SF x) (Prim2SF y)) as [[]|] eqn:Hxy; try discriminate.
  destruct (SFcompare (Prim2SF y) (Prim2SF z)) as [[]|] eqn:Hyz; try discriminate.
  intros _ _. rewrite (SFcompare_Lt_trans _ _ _ Hxy Hyz). reflexivity.
Qed.

Lemma float_ltb_irrefl (x : float) : (x <? x)%float = false.
Proof.
  rewrite ltb_spec. unfold SFltb.
  destruct (SFcompare (Prim2SF x) (Prim2SF x)) as [[]|] eqn:H; try reflexivity.
  exfalso. exact (SFcompare_refl_not_Lt _ H).
Qed.

(** Nothing above [m] stays nothing above a greater value. *)
Lemma float_not_above (m y z : float) :
  (m <? y)%float = true -> (m <? z)%float = false -> (y <? z)%float = false.
Proof.
  intros Hmy Hmz. destruct (y <? z)%float eqn:Hyz; [|reflexivity].
  rewrite (float_ltb_trans m y z Hmy Hyz) in Hmz. discriminate Hmz.
Qed.

(** The observed maximum is one of the observations. *)
Lemma series_max_In (ws : list float) : ws <> [] -> In (series_max ws) ws.
Proof.
  destruct ws as [|x rest]; [congruence | intros _; simpl].
  revert x. induction rest as [|y rest IH]; intros x; simpl.
  - now left.
  - destruct (x <? y)%float.
    + right. destruct (IH y) as [H|H]; [left | right]; assumption.
    + destruct (IH x) as [H|H]; [left | right; right]; assumption.
Qed.

Lemma running_max_bound (rest : list float) (m : float) (seen : list float) :
  (forall z, In z seen -> (m <? z)%float = false) ->
  forall z, In z (seen ++ rest) ->
    (fold_left (fun m y => if (m <? y)%float then y else m) rest m <? z)%float = false.
Proof.
  revert m seen. induction rest as [|y rest IH]; intros m seen Hseen z Hz; simpl.
  - rewrite app_nil_r in Hz. now apply Hseen.
  - apply (IH _ (seen ++ [y])).
    + intros z' Hz'. apply in_app_or in Hz'. destruct Hz' as [Hz'|[<-|[]]].
      * destruct (m <? y)%float eqn:Hmy; [|now apply Hseen].
        apply (float_not_above m); [exact Hmy | now apply Hseen].
      * destruct (m <? y)%float eqn:Hmy; [apply float_ltb_irrefl | exact Hmy].
    + rewrite <- app_assoc. exact Hz.
Qed.

(** ... and no observation is above it. *)
Lemma series_max_bound (ws : list float) (z : float) :
  In z ws -> (series_max ws <? z)%float = false.
Proof.
  destruct ws as [|x rest]; [intros [] | intros Hz].
  unfold series_max. apply (running_max_bound rest x [x]).
  - intros z' [<-|[]]. apply float_ltb_irrefl.
  - exact Hz.
Qed.

(** [max(a, b)] is one of the two, and neither is above it. *)
Lemma py_max_cases (a b : float) : py_max a b = a \/ py_max a b = b.
Proof. unfold py_max. destruct (a <? b)%float; [right | left]; reflexivity. Qed.

Lemma py_max_bound_r (a b : float) : (py_max a b <? b)%float = false.
Proof.
  unfold py_max. destruct (a <? b)%float eqn:Hab;
    [apply float_ltb_irrefl | exact Hab].
Qed.

Lemma py_max_bound (a b z : float) :
  (a <? z)%float = false -> (py_max a b <? z)%float = false.
Proof.
  intros Haz. unfold py_max. destruct (a <? b)%float eqn:Hab; [|exact Haz].
  now apply (float_not_above a).
Qed.


(** ** Reasoning about sequenced effects *)

Lemma bind_val {A B : Type} (a : A) (t : list event) (f : A -> M B) :
  bind (Val a, t) f = (fst (f a), t ++ snd (f a)).
Proof. unfold bind. destruct (f a); reflexivity. Qed.

Lemma bind_emit {B : Type} (e : event) (f : unit -> M B) :
  bind (emit e) f = (fst (f tt), e :: snd (f tt)).
Proof. unfold emit. rewrite bind_val. reflexivity. Qed.

Lemma bind_print {B : Type} (line : list frag) (f : unit -> M B) :
  bind (print line) f = (fst (f tt), Stdout line :: snd (f tt)).
Proof. apply bind_emit. Qed.

Lemma bind_ret {A B : Type} (a : A) (f : A -> M B) : bind (ret a) f = f a.
Proof. unfold ret. rewrite bind_val. destruct (f a); reflexivity. Qed.

Lemma bind_lift_ok {A B : Type} (a : A) (f : A -> M B) : bind (lift (Ok a)) f = f a.
Proof. apply bind_ret. Qed.

Lemma bind_lift_err {A B : Type} (exc : string) (f : A -> M B) :
  bind (lift (Err exc)) f = (Raise exc, []).
Proof. reflexivity. Qed.

(** A property of every event of a run is shown piece by piece. *)
Lemma Forall_bind {A B : Type} (P : event -> Prop) (m : M A) (f : A -> M B) :
  Forall P (snd m) -> (forall a, Forall P (snd (f a))) ->
  Forall P (snd (bind m f)).
Proof.
  intros Hm Hf. destruct m as [[a|exc|code] t]; simpl in *; try assumption.
  specialize (Hf a). destruct (f a) as [r t']; simpl in *.
  apply Forall_app; split; assumption.
Qed.

Lemma Forall_lift {A : Type} (P : event -> Prop) (r : Try A) :
  Forall P (snd (lift r)).
Proof. destruct r; constructor. Qed.

Lemma sure_bind {A B : Type} (m : M A) (f : A -> M B) :
  sure m -> (forall a, sure (f a)) -> sure (bind m f).
Proof.
  intros Hm Hf code. destruct m as [[a|exc|c] t]; simpl.
  - specialize (Hf a code). destruct (f a); exact Hf.
  - discriminate.
  - exfalso. exact (Hm c eq_refl).
Qed.

Lemma sure_lift {A : Type} (r : Try A) : sure (lift r).
Proof. intros code. destruct r; discriminate. Qed.

Lemma sure_val {A : Type} (a : A) (t : list event) : sure (Val a, t).
Proof. intros code. discriminate. Qed.

Lemma after_bind {A B : Type} (R : A -> Prop) (Q : B -> Prop)
    (m : M A) (f : A -> M B) :
  after R m -> (forall a, R a -> after Q (f a)) -> after Q (bind m f).
Proof.
  intros Hm Hf b t. destruct m as [[a|exc|code] t1]; simpl; try discriminate.
  specialize (Hf a (Hm a t1 eq_refl) b).
  destruct (f a) as [r t2]. intros H. injection H as Hr _. subst r.
  exact (Hf t2 eq_refl).
Qed.

Lemma after_any {A : Type} (m : M A) : after (fun _ => True) m.
Proof. intros a t _. exact I. Qed.

Lemma after_ret {A : Type} (Q : A -> Prop) (a : A) : Q a -> after Q (ret a).
Proof. intros H b t E. injection E as E _. subst b. exact H. Qed.

(** A sequence that returned: each piece returned. *)
Lemma bind_val_inv {A B : Type} (m : M A) (f : A -> M B) (b : B) (t : list event) :
  bind m f = (Val b, t) ->
  exists a t1 t2, m = (Val a, t1) /\ f a = (Val b, t2) /\ t = t1 ++ t2.
Proof.
  destruct m as [[a|exc|code] t1]; simpl; try discriminate.
  destruct (f a) as [r t2] eqn:Hf. intros H. injection H as -> <-.
  exists a, t1, t2. auto.
Qed.

Lemma lift_val_inv {A : Type} (r : Try A) (a : A) (t : list event) :
  lift r = (Val a, t) -> r = Ok a /\ t = [].
Proof. destruct r; simpl; intros H; inversion H; auto. Qed.

Lemma ret_val_inv {A : Type} (a b : A) (t : list event) :
  ret a = (Val b, t) -> a = b /\ t = [].
Proof. unfold ret. intros H. inversion H. auto. Qed.

Lemma df_get_val_inv (df : DataFrame) (name : string) (c : column) (t : list event) :
  df_get df name = (Val c, t) -> getitem df name = Some c /\ t = [].
Proof.
  unfold df_get. destruct (getitem df name); simpl; intros H; inversion H; auto.
Qed.


(** ** Calls into matplotlib *)

Lemma plt_do_ok (pyplot : plt_call -> Try unit) (c : plt_call) :
  pyplot c = Ok tt -> plt_do pyplot c = (Val tt, [Plt c]).
Proof. intros H. unfold plt_do. rewrite H. reflexivity. Qed.

Lemma plt_do_err (pyplot : plt_call -> Try unit) (c : plt_call) (exc : string) :
  pyplot c = Err exc -> plt_do pyplot c = (Raise exc, []).
Proof. intros H. unfold plt_do. rewrite H. reflexivity. Qed.

(** When matplotlib takes every call, all are made and [rest] follows. *)
Lemma play_then_ok (pyplot : plt_call -> Try unit) (calls : list plt_call)
    (rest : M unit) :
  (forall c, In c calls -> pyplot c = Ok tt) ->
  play_then pyplot calls rest = (fst rest, map Plt calls ++ snd rest).
Proof.
  induction calls as [|c calls IH]; intros Hall; simpl.
  - destruct rest; reflexivity.
  - rewrite (plt_do_ok pyplot c (Hall c (or_introl eq_refl))), bind_val.
    fold (play_then pyplot calls rest).
    rewrite IH; [reflexivity|]. intros c' Hc'. apply Hall. now right.
Qed.

(** Otherwise the first call that raises ends the sequence. *)
Lemma play_then_cases (pyplot : plt_call -> Try unit) (calls : list plt_call)
    (rest : M unit) :
  (forall c, In c calls -> pyplot c = Ok tt) \/
  exists pre c post exc,
    calls = pre ++ c :: post /\ (forall x, In x pre -> pyplot x = Ok tt) /\
    pyplot c = Err exc /\
    play_then pyplot calls rest = (Raise exc, map Plt pre).
Proof.
  induction calls as [|c calls IH].
  - left. intros c [].
  - destruct (pyplot c) as [[]|exc] eqn:Hc.
    + destruct IH as [Hall | (pre & c' & post & exc & -> & Hpre & Hc' & Hrun)].
      * left. intros x [<- | Hx]; [exact Hc | now apply Hall].
      * right. exists (c :: pre), c', post, exc.
        split; [reflexivity|]. split; [|split; [exact Hc'|]].
        -- intros x [<- | Hx]; [exact Hc | now apply Hpre].
        -- simpl. fold (play_then pyplot (pre ++ c' :: post) rest).
           rewrite (plt_do_ok pyplot c Hc), bind_val, Hrun. reflexivity.
    + right. exists [], c, calls, exc.
      split; [reflexivity|]. split; [intros x []|]. split; [exact Hc|].
      simpl. rewrite (plt_do_err pyplot c exc Hc). reflexivity.
Qed.

(** [savefig] is the last call: a sequence cut short has saved nothing. *)
Lemma plot_calls_cut (ws : list float) (k c : float) (out_png : string)
    (pre post : list plt_call) (call : plt_call) :
  plot_calls ws k c out_png = pre ++ call :: post ->
  files_written (map Plt pre) = [].
Proof.
  unfold plot_calls. intros H.
  do 10 (destruct pre as [|x pre]; [reflexivity | injection H as <- H]).
  destruct pre; discriminate H.
Qed.


Lemma plot_run (pyplot : plt_call -> Try unit)
    (ws : list float) (k c : float) (out_png : string) :
  plot_hist_with_weibull pyplot ws k c out_png =
    if series_empty (usable ws) then (Val tt, [Stdout WARN_NO_DATA])
    else play_then pyplot (plot_calls (usable ws) k c out_png)
           (print (SAVED_LINE out_png)).
Proof.
  unfold plot_hist_with_weibull. fold (usable ws).
  destruct (series_empty (usable ws)); reflexivity.
Qed.

(** The three ways the plotting step can go. *)
Lemma plot_cases (pyplot : plt_call -> Try unit)
    (ws : list float) (k c : float) (out_png : string) :
  (usable ws = [] /\
   plot_hist_with_weibull pyplot ws k c out_png = (Val tt, [Stdout WARN_NO_DATA])) \/
  (usable ws <> [] /\
   (forall call, In call (plot_calls (usable ws) k c out_png) ->
                 pyplot call = Ok tt) /\
   plot_hist_with_weibull pyplot ws k c out_png =
     (Val tt, rendering (usable ws) k c out_png)) \/
  (usable ws <> [] /\
   exists pre call post exc,
     plot_calls (usable ws) k c out_png = pre ++ call :: post /\
     (forall x, In x pre -> pyplot x = Ok tt) /\
     pyplot call = Err exc /\
     plot_hist_with_weibull pyplot ws k c out_png = (Raise exc, map Plt pre)).
Proof.
  rewrite plot_run. destruct (series_empty (usable ws)) eqn:Hempty.
  - left. apply series_empty_nil in Hempty. auto.
  - assert (Hdata : usable ws <> []).
    { intros E. apply series_empty_nil in E. congruence. }
    destruct (play_then_cases pyplot (plot_calls (usable ws) k c out_png)
                (print (SAVED_LINE out_png)))
      as [Hall | (pre & call & post & exc & Hcut & Hpre & Hcall & Hrun)].
    + right; left. split; [exact Hdata|]. split; [exact Hall|].
      rewrite (play_then_ok _ _ _ Hall). reflexivity.
    + right; right. split; [exact Hdata|].
      exists pre, call, post, exc. auto.
Qed.

Lemma plot_sure (pyplot : plt_call -> Try unit)
    (ws : list float) (k c : float) (out_png : string) :
  sure (plot_hist_with_weibull pyplot ws k c out_png).
Proof.
  intros code.
  destruct (plot_cases pyplot ws k c out_png)
    as [[_ ->] | [(_ & _ & ->) | (_ & pre & call & post & exc & _ & _ & _ & ->)]];
    discriminate.
Qed.

(** The sequence stops at the first call that raises. *)
Lemma play_then_stops (pyplot : plt_call -> Try unit)
    (pre : list plt_call) (call : plt_call) (post : list plt_call)
    (exc : string) (rest : M unit) :
  (forall x, In x pre -> pyplot x = Ok tt) -> pyplot call = Err exc ->
  play_then pyplot (pre ++ call :: post) rest = (Raise exc, map Plt pre).
Proof.
  intros Hpre Hcall. induction pre as [|a pre IH]; simpl.
  - rewrite (plt_do_err pyplot call exc Hcall). reflexivity.
  - fold (play_then pyplot (pre ++ call :: post) rest).
    rewrite (plt_do_ok pyplot a (Hpre a (or_introl eq_refl))), bind_val, IH;
      [reflexivity|].
    intros x Hx. apply Hpre. now right.
Qed.

(** The step returns when there is nothing to plot or every call returned. *)
Lemma plot_returns_iff (pyplot : plt_call -> Try unit)
    (ws : list float) (k c : float) (out_png : string) :
  fst (plot_hist_with_weibull pyplot ws k c out_png) = Val tt <->
  usable ws = [] \/
  forall call, In call (plot_calls (usable ws) k c out_png) -> pyplot call = Ok tt.
Proof.
  destruct (plot_cases pyplot ws k c out_png)
    as [[Hnil ->] | [(Hdata & Hall & ->)
       | (Hdata & pre & call & post & exc & Hcut & _ & Hcall & ->)]]; cbn [fst].
  - split; [now left | reflexivity].
  - split; [now right | reflexivity].
  - split; [discriminate|]. intros [Hnil | Hall]; [contradiction|].
    rewrite (Hall call) in Hcall; [discriminate Hcall|].
    rewrite Hcut. apply in_elt.
Qed.

(** It raises what the first call that fails raised. *)
Lemma plot_raises_iff (pyplot : plt_call -> Try unit)
    (ws : list float) (k c : float) (out_png : string) (exc : string) :
  fst (plot_hist_with_weibull pyplot ws k c out_png) = Raise exc <->
  usable ws <> [] /\
  exists pre call post,
    plot_calls (usable ws) k c out_png = pre ++ call :: post /\
    (forall made, In made pre -> pyplot made = Ok tt) /\
    pyplot call = Err exc.
Proof.
  split.
  - destruct (plot_cases pyplot ws k c out_png)
      as [[Hnil ->] | [(Hdata & Hall & ->)
         | (Hdata & pre & call & post & e & Hcut & Hpre & Hcall & ->)]]; cbn [fst];
      try discriminate.
    intros H. injection H as <-. split; [exact Hdata|].
    exists pre, call, post. auto.
  - intros (Hdata & pre & call & post & Hcut & Hpre & Hcall).
    rewrite plot_run. destruct (series_empty (usable ws)) eqn:Hempty.
    + apply series_empty_nil in Hempty. contradiction.
    + rewrite Hcut, (play_then_stops pyplot pre call post exc _ Hpre Hcall).
      reflexivity.
Qed.


(** Every event of the plotting step is one of the full rendering, or the
    one warning. *)
Lemma plot_events (pyplot : plt_call -> Try unit)
    (ws : list float) (k c : float) (out_png : string) (e : event) :
  In e (snd (plot_hist_with_weibull pyplot ws k c out_png)) ->
  e = Stdout WARN_NO_DATA \/ In e (rendering (usable ws) k c out_png).
Proof.
  destruct (plot_cases pyplot ws k c out_png)
    as [[_ ->] | [(_ & _ & ->)
       | (_ & pre & call & post & exc & Hcut & _ & _ & ->)]]; cbn [snd].
  - intros [<- | []]. now left.
  - intros H. now right.
  - intros H. right. unfold rendering. apply in_or_app. left.
    rewrite Hcut, map_app. apply in_or_app. now left.
Qed.

(** ** plot_hist_with_weibull without data, and on a pre-stripped series *)

(** C9: when no entry is usable the plotting step returns normally, having
    printed one warning and nothing else: no call reaches matplotlib and no
    file is written, whatever file name was supplied. *)
Theorem plot_hist_with_weibull_no_data
    (pyplot : plt_call -> Try unit)
    (ws : list float) (k c : float) (out_png : string) :
  usable ws = [] ->
  plot_hist_with_weibull pyplot ws k c out_png = (Val tt, [Stdout WARN_NO_DATA]) /\
  files_written (snd (plot_hist_with_weibull pyplot ws k c out_png)) = [].
Proof.
  intros Hempty. rewrite plot_run, Hempty. split; reflexivity.
Qed.

Lemma plot_hist_with_weibull_no_data_witness :
  usable [nan; (-3)%float; nan] = [] /\
  plot_hist_with_weibull Canned.pyplot [nan; (-3)%float; nan] 2%float 5%float
    "out.png" = (Val tt, [Stdout WARN_NO_DATA]).
Proof.
  split.
  - reflexivity.
  - apply (plot_hist_with_weibull_no_data Canned.pyplot [nan; (-3)%float; nan]
             2%float 5%float "out.png").
    reflexivity.
Defined.

(** X13: the plotting step ignores missing and negative entries wherever they
    sit: its calls on a series are its calls on the pre-stripped series, and
    every value it hands to the histogram is defined and not below zero. *)
Theorem plot_hist_with_weibull_prestripped
    (pyplot : plt_call -> Try unit)
    (ws : list float) (k c : float) (out_png : string) :
  plot_hist_with_weibull pyplot ws k c out_png =
    plot_hist_with_weibull pyplot (usable ws) k c out_png /\
  (forall data bins density alpha label,
     In (Plt (Hist data bins density alpha label))
        (snd (plot_hist_with_weibull pyplot ws k c out_png)) ->
     data = usable ws /\
     forall x, In x data -> is_nan x = false /\ (0 <=? x)%float = true).
Proof.
  split.
  - rewrite (plot_run pyplot (usable ws)), usable_idem, plot_run. reflexivity.
  - intros data bins density alpha label Hin.
    apply plot_events in Hin as [Hin | Hin]; [discriminate Hin|].
    assert (Hdata : data = usable ws).
    { unfold rendering, plot_calls in Hin. simpl in Hin.
      repeat (destruct Hin as [H|Hin]; [try discriminate H|]);
        [|contradiction].
      injection H as <-. reflexivity. }
    split; [exact Hdata|]. subst data.
    intros x Hx. apply usable_In in Hx. tauto.
Qed.

(** ** Columns *)

Lemma assoc_assign (name name' : string) (v : column) (l : list (string * column)) :
  assoc name' (assign name v l) =
    if (name =? name')%string then Some v else assoc name' l.
Proof.
  induction l as [|[k c] rest IH]; simpl.
  - destruct (name =? name')%string; reflexivity.
  - destruct (k =? name)%string eqn:Hk; simpl.
    + apply String.eqb_eq in Hk. subst k.
      destruct (name =? name')%string; reflexivity.
    + rewrite IH. destruct (k =? name')%string eqn:Hk'; [|reflexivity].
      apply String.eqb_eq in Hk'. subst k.
      rewrite String.eqb_sym, Hk. reflexivity.
Qed.

Lemma has_column_assoc (df : DataFrame) (name : string) :
  has_column df name = match getitem df name with Some _ => true | None => false end.
Proof.
  unfold has_column, getitem, columns. destruct df as [n l]; simpl.
  induction l as [|[k c] rest IH]; simpl.
  - reflexivity.
  - destruct (k =? name)%string; simpl; [reflexivity | exact IH].
Qed.

Lemma getitem_setitem (df : DataFrame) (name name' : string) (v : column) :
  getitem (setitem df name v) name' =
    if (name =? name')%string then Some v else getitem df name'.
Proof. unfold getitem, setitem; simpl. apply assoc_assign. Qed.

Lemma getitem_take_rows (order : list nat) (df : DataFrame) (name : string) :
  getitem (take_rows order df) name =
    option_map (take_column order) (getitem df name).
Proof.
  unfold getitem, take_rows; simpl. destruct df as [n l]; simpl.
  induction l as [|[k c] rest IH]; simpl.
  - reflexivity.
  - destruct (k =? name)%string; [reflexivity | exact IH].
Qed.

Lemma columns_assign (name : string) (v : column) (l : list (string * column)) :
  existsb (fun c => (c =? name)%string) (map fst l) = true ->
  map fst (assign name v l) = map fst l.
Proof.
  induction l as [|[k c] rest IH]; simpl.
  - discriminate.
  - destruct (k =? name)%string; simpl.
    + reflexivity.
    + intros H. rewrite IH; [reflexivity | exact H].
Qed.

(** Assigning to a column that exists keeps the columns and their order. *)
Lemma columns_setitem (df : DataFrame) (name : string) (v : column) :
  has_column df name = true -> columns (setitem df name v) = columns df.
Proof. unfold has_column, columns, setitem; simpl. apply columns_assign. Qed.

Lemma columns_take_rows (order : list nat) (df : DataFrame) :
  columns (take_rows order df) = columns df.
Proof.
  unfold columns, take_rows; simpl. rewrite map_map. reflexivity.
Qed.

Lemma take_column_dtype (order : list nat) (c : column) :
  same_dtype (take_column order c) c.
Proof. destruct c; exact I. Qed.

Lemma same_dtype_refl (c : column) : same_dtype c c.
Proof. destruct c; exact I. Qed.

Lemma same_dtype_trans (c1 c2 c3 : column) :
  same_dtype c1 c2 -> same_dtype c2 c3 -> same_dtype c1 c3.
Proof. destruct c1, c2, c3; simpl; tauto. Qed.


(** ** fetch_asos_hourly and main *)

Section MainProperties.

Variable requests_get : string -> list (string * string) -> Z -> Try Response.
Variable pd_DataFrame : json -> Try DataFrame.
Variable pd_to_datetime : column -> Try (list (option Z)).
Variable argsort : list (option Z) -> list nat.
Variable pd_to_numeric : column -> Try column.
Variable weibull_min_fit : list float -> float -> Try (float * float * float).
Variable series_mean : list float -> float.
Variable to_csv : string -> DataFrame -> bool -> string -> Try unit.
Variable pyplot : plt_call -> Try unit.

Let fetch := fetch_asos_hourly requests_get pd_DataFrame pd_to_datetime argsort
               pd_to_numeric.
Let script := main requests_get pd_DataFrame pd_to_datetime argsort pd_to_numeric
                weibull_min_fit series_mean to_csv pyplot.
Let fetched (cfg : Config) : M DataFrame :=
  fetch (API_KEY cfg) (STATION_ID cfg) (START_DATE cfg) (START_HH cfg)
        (END_DATE cfg) (END_HH cfg).
Let tail := tabulate pd_DataFrame pd_to_datetime argsort pd_to_numeric.

Lemma to_numeric_columns_quiet (names : list string) (df : DataFrame) :
  snd (to_numeric_columns pd_to_numeric names df) = [].
Proof.
  revert df. induction names as [|col rest IH]; intros df; simpl.
  - reflexivity.
  - destruct (has_column df col).
    + unfold df_get. destruct (getitem df col) as [c|]; [|reflexivity].
      rewrite bind_ret. destruct (pd_to_numeric c) as [v|exc]; [|reflexivity].
      rewrite bind_lift_ok, bind_ret. apply IH.
    + rewrite bind_ret. apply IH.
Qed.

Lemma to_numeric_columns_sure (names : list string) (df : DataFrame) :
  sure (to_numeric_columns pd_to_numeric names df).
Proof.
  revert df. induction names as [|col rest IH]; intros df; simpl.
  - apply sure_val.
  - apply sure_bind; [|exact IH].
    destruct (has_column df col); [|apply sure_val].
    apply sure_bind.
    + unfold df_get. destruct (getitem df col); intros code; discriminate.
    + intros c. apply sure_bind; [apply sure_lift | intros v; apply sure_val].
Qed.

Lemma raise_for_status_cases (r : Response) :
  raise_for_status r = (Val tt, []) \/ raise_for_status r = (Raise "HTTPError", []).
Proof.
  unfold raise_for_status.
  destruct ((400 <=? status_code r) && (status_code r <? 600))%Z; [right | left];
    reflexivity.
Qed.

Lemma fetch_sure (api_key stn_id start_dt start_hh end_dt end_hh : string) :
  sure (fetch api_key stn_id start_dt start_hh end_dt end_hh).
Proof.
  unfold fetch, fetch_asos_hourly.
  apply sure_bind; [apply sure_val | intros _].
  apply sure_bind; [apply sure_lift | intros r].
  apply sure_bind; [|intros _].
  { destruct (raise_for_status_cases r) as [E|E]; rewrite E; intros code; discriminate. }
  apply sure_bind; [apply sure_lift | intros j].
  apply sure_bind; [apply sure_lift | intros resultCode].
  apply sure_bind; [|intros _].
  { destruct (differs_from_str resultCode "00"); [|apply sure_val].
    apply sure_bind; [apply sure_lift | intros h; apply sure_val]. }
  apply sure_bind; [apply sure_lift | intros items].
  destruct (negb (truthy items)).
  - apply sure_bind; [apply sure_val | intros _; apply sure_val].
  - apply sure_bind; [apply sure_lift | intros df].
    apply sure_bind; [apply sure_val | intros _].
    apply sure_bind; [|intros df'; apply to_numeric_columns_sure].
    destruct (has_column df "tm"); [|apply sure_val].
    apply sure_bind.
    + unfold df_get. destruct (getitem df "tm"); intros code; discriminate.
    + intros tm. apply sure_bind; [apply sure_lift | intros tm'; apply sure_val].
Qed.

(** [fetch_asos_hourly] prints and does nothing else that can be observed. *)
Lemma fetch_prints (P : event -> Prop)
    (api_key stn_id start_dt start_hh end_dt end_hh : string) :
  holds_of_prints P ->
  Forall P (snd (fetch api_key stn_id start_dt start_hh end_dt end_hh)).
Proof.
  intros HP. unfold fetch, fetch_asos_hourly.
  apply Forall_bind; [repeat constructor; apply HP | intros _].
  apply Forall_bind; [apply Forall_lift | intros r].
  apply Forall_bind; [|intros _].
  { destruct (raise_for_status_cases r) as [E|E]; rewrite E; constructor. }
  apply Forall_bind; [apply Forall_lift | intros j].
  apply Forall_bind; [apply Forall_lift | intros resultCode].
  apply Forall_bind; [|intros _].
  { destruct (differs_from_str resultCode "00"); [|constructor].
    apply Forall_bind; [apply Forall_lift | intros h].
    repeat constructor; apply HP. }
  apply Forall_bind; [apply Forall_lift | intros items].
  destruct (negb (truthy items)).
  - apply Forall_bind; [repeat constructor; apply HP | intros _; constructor].
  - apply Forall_bind; [apply Forall_lift | intros df].
    apply Forall_bind; [repeat constructor; apply HP | intros _].
    apply Forall_bind;
      [|intros df'; rewrite to_numeric_columns_quiet; constructor].
    destruct (has_column df "tm"); [|constructor].
    apply Forall_bind.
    + unfold df_get. destruct (getitem df "tm"); constructor.
    + intros tm. apply Forall_bind; [apply Forall_lift | intros tm'; constructor].
Qed.

Lemma header_of_ok (j rc : json) :
  result_code_of j = Ok rc -> exists h, header_of j = Ok h.
Proof.
  unfold result_code_of, header_of.
  destruct j; simpl; try discriminate.
  destruct (match assoc "response" kvs with Some v => v | None => JObj [] end);
    simpl; try discriminate.
  intros _. eexists. reflexivity.
Qed.

(** A reply without items: the error line, and the empty frame. *)
Lemma fetch_no_items
    (api_key stn_id start_dt start_hh end_dt end_hh : string)
    (r : Response) (j rc items : json) :
  requests_get BASE_URL
    (query api_key stn_id start_dt start_hh end_dt end_hh) 60 = Ok r ->
  raise_for_status r = (Val tt, []) ->
  json_body r = Ok j ->
  result_code_of j = Ok rc ->
  items_of j = Ok items ->
  truthy items = false ->
  exists t,
    fetch api_key stn_id start_dt start_hh end_dt end_hh =
      (Val empty_frame, t ++ [Stdout ERROR_NO_DATA]).
Proof.
  intros Hget Hstatus Hjson Hrc Hitems Hfalsy.
  unfold fetch, fetch_asos_hourly. cbv zeta.
  rewrite bind_print, Hget, bind_lift_ok, Hstatus.
  change (@pair (Res unit) (list event) (Val tt) []) with (ret tt).
  rewrite bind_ret, Hjson, bind_lift_ok, Hrc, bind_lift_ok.
  destruct (header_of_ok j rc Hrc) as [h Hh].
  destruct (differs_from_str rc "00").
  - rewrite Hh, bind_lift_ok, bind_print. cbn [fst snd].
    rewrite Hitems, bind_lift_ok, Hfalsy. cbn [negb].
    rewrite bind_print. cbn [fst snd ret].
    exists [Stdout [Lit "[INFO] 요청:"; Lit " "; Lit BASE_URL];
            Stdout [Lit "[WARN] API header:"; Lit " "; Repr h]].
    reflexivity.
  - rewrite bind_ret, Hitems, bind_lift_ok, Hfalsy. cbn [negb].
    rewrite bind_print. cbn [fst snd ret].
    exists [Stdout [Lit "[INFO] 요청:"; Lit " "; Lit BASE_URL]].
    reflexivity.
Qed.

(** The function on a reply that decodes: request line, header warning if
    the result code is not "00", then the tail on the items. *)
Lemma fetch_on_reply
    (api_key stn_id start_dt start_hh end_dt end_hh : string)
    (r : Response) (j rc h items : json) :
  requests_get BASE_URL
    (query api_key stn_id start_dt start_hh end_dt end_hh) 60 = Ok r ->
  raise_for_status r = (Val tt, []) ->
  json_body r = Ok j ->
  result_code_of j = Ok rc ->
  header_of j = Ok h ->
  items_of j = Ok items ->
  fetch api_key stn_id start_dt start_hh end_dt end_hh =
    (fst (tail items),
     Stdout REQUEST_LINE ::
       (if differs_from_str rc "00" then [Stdout (HEADER_LINE h)] else [])
       ++ snd (tail items)).
Proof.
  intros Hget Hstatus Hjson Hrc Hh Hitems.
  unfold fetch, fetch_asos_hourly. cbv zeta.
  rewrite bind_print, Hget, bind_lift_ok, Hstatus.
  change (@pair (Res unit) (list event) (Val tt) []) with (ret tt).
  rewrite bind_ret, Hjson, bind_lift_ok, Hrc, bind_lift_ok.
  destruct (differs_from_str rc "00").
  - rewrite Hh, bind_lift_ok, bind_print. cbn [fst snd].
    rewrite Hitems, bind_lift_ok. reflexivity.
  - rewrite bind_ret, Hitems, bind_lift_ok. reflexivity.
Qed.

(** One round of the conversion loop, looked at from its result. *)
Lemma to_numeric_step_inv (col : string) (d d1 : DataFrame) (t : list event) :
  (if has_column d col then
     c <- df_get d col ;;
     v <- lift (pd_to_numeric c) ;;
     ret (setitem d col v)
   else ret d) = (Val d1, t) ->
  t = [] /\
  ((has_column d col = false /\ d1 = d) \/
   (has_column d col = true /\ exists v, d1 = setitem d col v)).
Proof.
  destruct (has_column d col) eqn:Hhas.
  - intros H.
    apply bind_val_inv in H as (c & t1 & t2 & Hc & H & ->).
    apply df_get_val_inv in Hc as [_ ->].
    apply bind_val_inv in H as (v & t3 & t4 & Hv & H & ->).
    apply lift_val_inv in Hv as [_ ->].
    apply ret_val_inv in H as [<- ->].
    split; [reflexivity|]. right. split; [reflexivity|]. now exists v.
  - intros H. apply ret_val_inv in H as [<- ->]. auto.
Qed.

(** The loop replaces columns in place: same columns, same order, same
    number of rows; a column it does not name is the one that went in. *)
Lemma to_numeric_columns_inv (names : list string) (d df : DataFrame)
    (t : list event) :
  to_numeric_columns pd_to_numeric names d = (Val df, t) ->
  t = [] /\ columns df = columns d /\ nrows df = nrows d /\
  (forall n, ~ In n names -> getitem df n = getitem d n).
Proof.
  revert d t. induction names as [|col rest IH]; intros d t H; simpl in H.
  - apply ret_val_inv in H as [<- ->]. repeat split; auto.
  - apply bind_val_inv in H as (d1 & t1 & t2 & Hstep & H & ->).
    apply to_numeric_step_inv in Hstep as [-> Hd1].
    apply IH in H as (-> & Hcols & Hrows & Hother).
    assert (Hd1cols : columns d1 = columns d /\ nrows d1 = nrows d).
    { destruct Hd1 as [[_ ->] | [Hhas [v ->]]]; [auto|].
      split; [now apply columns_setitem | reflexivity]. }
    assert (Hkeep : forall n, n <> col -> getitem d1 n = getitem d n).
    { intros n Hn. destruct Hd1 as [[_ ->] | [_ [v ->]]]; [reflexivity|].
      rewrite getitem_setitem.
      destruct (col =? n)%string eqn:E; [|reflexivity].
      apply String.eqb_eq in E. congruence. }
    destruct Hd1cols as [Hc1 Hr1].
    split; [reflexivity|]. split; [congruence|]. split; [congruence|].
    intros n Hn. rewrite (Hother n); [|intros Hin; apply Hn; now right].
    apply Hkeep. intros ->. apply Hn. now left.
Qed.

(** The tail of the fetch, looked at from a frame it returned: the empty
    frame after the error line, or the frame pandas built from the items with
    the same columns in the same order and the same number of rows. *)
Lemma tabulate_val_inv (items : json) (df : DataFrame) (t : list event) :
  tail items = (Val df, t) ->
  (truthy items = false /\ df = empty_frame /\ t = [Stdout ERROR_NO_DATA]) \/
  (truthy items = true /\
   exists df0, pd_DataFrame items = Ok df0 /\
     t = [Stdout (COLUMNS_LINE df0)] /\
     columns df = columns df0 /\ nrows df = nrows df0 /\
     (forall n c, ~ In n CONVERTED -> getitem df n = Some c ->
        exists c0, getitem df0 n = Some c0 /\ same_dtype c c0)).
Proof.
  unfold tail, tabulate. destruct (truthy items); cbn [negb]; intros H.
  - right. split; [reflexivity|].
    apply bind_val_inv in H as (df0 & t1 & t2 & Hdf0 & H & ->).
    apply lift_val_inv in Hdf0 as [Hdf0 ->].
    rewrite bind_print in H. injection H as Hfst <-.
    destruct (bind _ _) as [r t3] eqn:Hrest in Hfst. cbn [fst] in Hfst. subst r.
    rewrite Hrest. cbn [snd].
    apply bind_val_inv in Hrest as (d1 & t4 & t5 & Htm & Hnum & ->).
    apply (to_numeric_columns_inv ["ws"; "wd"; "ta"; "hm"] d1 df t5) in Hnum
      as (-> & Hcols & Hrows & Hother).
    assert (Hd1 : t4 = [] /\ columns d1 = columns df0 /\ nrows d1 = nrows df0 /\
                  (forall n c, n <> "tm" -> getitem d1 n = Some c ->
                     exists c0, getitem df0 n = Some c0 /\ same_dtype c c0)).
    { destruct (has_column df0 "tm") eqn:Hhas.
      - apply bind_val_inv in Htm as (c & t6 & t7 & Hc & Htm & ->).
        apply df_get_val_inv in Hc as [_ ->].
        apply bind_val_inv in Htm as (tm & t8 & t9 & Htm' & Htm & ->).
        apply lift_val_inv in Htm' as [_ ->].
        apply ret_val_inv in Htm as [<- ->].
        split; [reflexivity|].
        split; [rewrite columns_take_rows; now apply columns_setitem|].
        split; [reflexivity|].
        intros n c' Hn Hc'. rewrite getitem_take_rows, getitem_setitem in Hc'.
        destruct ("tm" =? n)%string eqn:E;
          [apply String.eqb_eq in E; congruence|].
        destruct (getitem df0 n) as [c0|]; [|discriminate].
        cbn in Hc'. injection Hc' as <-. exists c0.
        split; [reflexivity | apply take_column_dtype].
      - apply ret_val_inv in Htm as [<- ->].
        split; [reflexivity|]. split; [reflexivity|]. split; [reflexivity|].
        intros n c' _ Hc'. exists c'. split; [exact Hc' | apply same_dtype_refl]. }
    destruct Hd1 as (-> & Hc1 & Hr1 & Hrest).
    exists df0. split; [exact Hdf0|]. split; [reflexivity|].
    split; [congruence|]. split; [congruence|].
    intros n c Hn Hc.
    rewrite Hother in Hc; [|intros Hin; apply Hn; now right].
    apply (Hrest n c); [|exact Hc]. intros ->. apply Hn. now left.
  - left. split; [reflexivity|].
    rewrite bind_print in H. injection H as <- <-. auto.
Qed.

Lemma raise_for_status_val_inv (r : Response) (u : unit) (t : list event) :
  raise_for_status r = (Val u, t) -> t = [].
Proof.
  destruct (raise_for_status_cases r) as [E|E]; rewrite E; intros H;
    inversion H; reflexivity.
Qed.

(** A fetch that returned went through a reply that decoded. *)
Lemma fetch_val_inv
    (api_key stn_id start_dt start_hh end_dt end_hh : string)
    (df : DataFrame) (t : list event) :
  fetch api_key stn_id start_dt start_hh end_dt end_hh = (Val df, t) ->
  exists r j rc items t0 t1,
    requests_get BASE_URL
      (query api_key stn_id start_dt start_hh end_dt end_hh) 60 = Ok r /\
    json_body r = Ok j /\ result_code_of j = Ok rc /\ items_of j = Ok items /\
    tail items = (Val df, t1) /\ t = t0 ++ t1.
Proof.
  unfold fetch, fetch_asos_hourly. cbv zeta. intros H.
  rewrite bind_print in H. injection H as Hfst <-.
  destruct (bind _ _) as [res t'] eqn:H in Hfst. cbn [fst] in Hfst. subst res.
  rewrite H. cbn [snd].
  apply bind_val_inv in H as (r & t1 & t2 & Hr & H & ->).
  apply lift_val_inv in Hr as [Hr ->].
  apply bind_val_inv in H as (u & t3 & t4 & Hst & H & ->).
  apply raise_for_status_val_inv in Hst as ->.
  apply bind_val_inv in H as (j & t5 & t6 & Hj & H & ->).
  apply lift_val_inv in Hj as [Hj ->].
  apply bind_val_inv in H as (rc & t7 & t8 & Hrc & H & ->).
  apply lift_val_inv in Hrc as [Hrc ->].
  apply bind_val_inv in H as (u' & t9 & t10 & Hwarn & H & ->).
  apply bind_val_inv in H as (items & t11 & t12 & Hitems & H & ->).
  apply lift_val_inv in Hitems as [Hitems ->].
  exists r, j, rc, items, (Stdout REQUEST_LINE :: t9), t12.
  repeat split; try assumption.
Qed.

Lemma raise_for_status_ok (r : Response) :
  (status_code r < 400 \/ 600 <= status_code r)%Z ->
  raise_for_status r = (Val tt, []).
Proof.
  intros Hstatus. unfold raise_for_status.
  replace ((400 <=? status_code r) && (status_code r <? 600))%Z with false;
    [reflexivity|].
  symmetry. apply andb_false_iff.
  destruct Hstatus; [left; apply Z.leb_gt | right; apply Z.ltb_ge]; lia.
Qed.

Lemma dict_get_err (o : json) (key : string) (default : json) (exc : string) :
  dict_get o key default = Err exc -> exc = "AttributeError".
Proof. destruct o; simpl; intros H; inversion H; reflexivity. Qed.

Lemma try_bind_err {A B : Type} (r : Try A) (f : A -> Try B) (exc : string) :
  try_bind r f = Err exc -> r = Err exc \/ exists a, r = Ok a /\ f a = Err exc.
Proof.
  destruct r as [a|e]; simpl; intros H.
  - right. exists a. split; [reflexivity | exact H].
  - left. injection H as ->. reflexivity.
Qed.


(** The lookups down the reply fail in one way only. *)
Lemma result_code_of_err (j : json) (exc : string) :
  result_code_of j = Err exc -> exc = "AttributeError".
Proof.
  unfold result_code_of. intros H.
  apply try_bind_err in H as [H | (a & _ & H)]; [now apply dict_get_err in H|].
  apply try_bind_err in H as [H | (b & _ & H)]; now apply dict_get_err in H.
Qed.

Lemma items_of_err (j : json) (exc : string) :
  items_of j = Err exc -> exc = "AttributeError".
Proof.
  unfold items_of. intros H.
  apply try_bind_err in H as [H | (a & _ & H)]; [now apply dict_get_err in H|].
  apply try_bind_err in H as [H | (b & _ & H)]; [now apply dict_get_err in H|].
  apply try_bind_err in H as [H | (c & _ & H)]; now apply dict_get_err in H.
Qed.

Lemma only_prints_no_files (t : list event) : only_prints t -> files_written t = [].
Proof.
  induction 1 as [|e t [line ->] _ IH]; simpl.
  - reflexivity.
  - exact IH.
Qed.

Lemma files_written_app (t1 t2 : list event) :
  files_written (t1 ++ t2) = files_written t1 ++ files_written t2.
Proof. unfold files_written. apply flat_map_app. Qed.

Lemma fit_weibull_no_files (ws : list float) :
  files_written (snd (fit_weibull weibull_min_fit ws)) = [].
Proof.
  rewrite fit_weibull_run. cbn [snd].
  destruct (List.length (usable ws) <? 100)%nat; reflexivity.
Qed.

(** [main] as one case analysis on what its collaborators answer. *)
Lemma main_run (cfg : Config) :
  script cfg =
    match fetched cfg with
    | (Val df, t) =>
        if frame_empty df then (SysExit 1, t)
        else
          match to_csv (out_csv_name cfg) df false "utf-8-sig" with
          | Err exc => (Raise exc, t)
          | Ok _ =>
              let t1 := t ++ [ToCsv (out_csv_name cfg) df false "utf-8-sig";
                              Stdout (CSV_LINE cfg df)] in
              match getitem df "ws" with
              | None =>
                  (SysExit 1,
                   t1 ++ [Stdout ERROR_NO_WS; Stdout HINT_NO_WS;
                          Stdout [Frame (head df)]])
              | Some col =>
                  match numeric_view col with
                  | None => (Raise "TypeError", t1)
                  | Some ws =>
                      let t2 := t1 ++ snd (fit_weibull weibull_min_fit ws) in
                      match weibull_min_fit (usable ws) 0%float with
                      | Err exc => (Raise exc, t2)
                      | Ok (k, _, c) =>
                          let P := plot_hist_with_weibull pyplot ws k c
                                     (out_png_name cfg) in
                          match fst P with
                          | Val _ =>
                              (Val tt,
                               t2 ++ [Stdout (RESULT_LINE k c)] ++ snd P
                                  ++ Stdout (MEAN_LINE (series_mean (dropna ws)))
                                     :: NEXT_STEPS)
                          | Raise exc =>
                              (Raise exc, t2 ++ [Stdout (RESULT_LINE k c)] ++ snd P)
                          | SysExit code =>
                              (SysExit code,
                               t2 ++ [Stdout (RESULT_LINE k c)] ++ snd P)
                          end
                      end
                  end
              end
          end
    | (Raise exc, t) => (Raise exc, t)
    | (SysExit code, t) => (SysExit code, t)
    end.
Proof.
  unfold script, main, fetched, fetch.
  destruct (fetch_asos_hourly _ _ _ _ _ _ _ _ _ _ _) as [[df|exc|code] t];
    [|reflexivity|reflexivity].
  rewrite bind_val. destruct (frame_empty df).
  { cbn. rewrite app_nil_r. reflexivity. }
  rewrite bind_ret.
  destruct (to_csv (out_csv_name cfg) df false "utf-8-sig") as [[]|exc].
  2:{ cbn. rewrite app_nil_r. reflexivity. }
  rewrite bind_lift_ok, bind_emit, bind_print, has_column_assoc. unfold df_get.
  destruct (getitem df "ws") as [col|]; cbn [negb fst snd].
  2:{ rewrite !bind_print. cbn [fst snd sys_exit].
      rewrite <- app_assoc. reflexivity. }
  rewrite !bind_ret. unfold float64_values.
  destruct (numeric_view col) as [ws|].
  2:{ cbn. reflexivity. }
  rewrite bind_ret, !fit_weibull_run. cbn [snd].
  destruct (weibull_min_fit (usable ws) 0%float) as [[[k loc] c]|exc];
    cbn [shape_scale].
  2:{ cbn [bind]. rewrite <- app_assoc. reflexivity. }
  rewrite bind_val. cbn [fst snd]. rewrite bind_print. cbn [fst snd].
  destruct (plot_hist_with_weibull pyplot ws k c (out_png_name cfg))
    as [[u|exc|code] tp]; cbn [bind fst snd].
  - rewrite !bind_print. cbn [fst snd print emit].
    rewrite <- !app_assoc. reflexivity.
  - rewrite <- !app_assoc. reflexivity.
  - rewrite <- !app_assoc. reflexivity.
Qed.

Lemma main_fetch_raises (cfg : Config) (exc : string) (t : list event) :
  fetched cfg = (Raise exc, t) -> script cfg = (Raise exc, t).
Proof. intros HF. rewrite main_run, HF. reflexivity. Qed.

Lemma main_empty_frame (cfg : Config) (df : DataFrame) (t : list event) :
  fetched cfg = (Val df, t) -> frame_empty df = true ->
  script cfg = (SysExit 1, t).
Proof. intros HF Hempty. rewrite main_run, HF, Hempty. reflexivity. Qed.

Lemma main_csv_raises
    (cfg : Config) (df : DataFrame) (t : list event) (exc : string) :
  fetched cfg = (Val df, t) -> frame_empty df = false ->
  to_csv (out_csv_name cfg) df false "utf-8-sig" = Err exc ->
  script cfg = (Raise exc, t).
Proof. intros HF Hempty Hcsv. rewrite main_run, HF, Hempty, Hcsv. reflexivity. Qed.

Lemma main_no_ws (cfg : Config) (df : DataFrame) (t : list event) :
  fetched cfg = (Val df, t) -> frame_empty df = false ->
  to_csv (out_csv_name cfg) df false "utf-8-sig" = Ok tt ->
  has_column df "ws" = false ->
  script cfg =
    (SysExit 1,
     t ++ [ ToCsv (out_csv_name cfg) df false "utf-8-sig";
            Stdout [Lit "[INFO] CSV 저장: "; Lit (out_csv_name cfg);
                    Lit " (rows="; Int (nrows df); Lit ")"];
            Stdout ERROR_NO_WS;
            Stdout HINT_NO_WS;
            Stdout [Frame (head df)] ]).
Proof.
  intros HF Hempty Hcsv Hws. rewrite main_run, HF, Hempty, Hcsv.
  rewrite has_column_assoc in Hws.
  destruct (getitem df "ws"); [discriminate|].
  cbv zeta. rewrite <- app_assoc. reflexivity.
Qed.

(** The run once the frame has a numeric "ws" column and is on disk. *)
Lemma main_run_with_ws
    (cfg : Config) (df : DataFrame) (t : list event) (col : column)
    (ws : list float) :
  fetched cfg = (Val df, t) -> frame_empty df = false ->
  to_csv (out_csv_name cfg) df false "utf-8-sig" = Ok tt ->
  getitem df "ws" = Some col -> numeric_view col = Some ws ->
  script cfg =
    let t2 := t ++ [ToCsv (out_csv_name cfg) df false "utf-8-sig";
                    Stdout (CSV_LINE cfg df)]
                ++ snd (fit_weibull weibull_min_fit ws) in
    match weibull_min_fit (usable ws) 0%float with
    | Err exc => (Raise exc, t2)
    | Ok (k, _, c) =>
        let P := plot_hist_with_weibull pyplot ws k c (out_png_name cfg) in
        match fst P with
        | Val _ =>
            (Val tt,
             t2 ++ [Stdout (RESULT_LINE k c)] ++ snd P
                ++ Stdout (MEAN_LINE (series_mean (dropna ws))) :: NEXT_STEPS)
        | Raise exc => (Raise exc, t2 ++ [Stdout (RESULT_LINE k c)] ++ snd P)
        | SysExit code => (SysExit code, t2 ++ [Stdout (RESULT_LINE k c)] ++ snd P)
        end
    end.
Proof.
  intros HF Hempty Hcsv Hc Hview.
  rewrite main_run, HF, Hempty, Hcsv, Hc, Hview. cbv zeta.
  rewrite <- !app_assoc. reflexivity.
Qed.

Lemma fetched_no_files (cfg : Config) (r : Res DataFrame) (t : list event) :
  fetched cfg = (r, t) -> files_written t = [].
Proof.
  intros HF. apply only_prints_no_files.
  pose proof (fetch_prints (fun e => exists line, e = Stdout line)
                (API_KEY cfg) (STATION_ID cfg) (START_DATE cfg) (START_HH cfg)
                (END_DATE cfg) (END_HH cfg)) as H.
  fold fetch in H. fold (fetched cfg) in H. rewrite HF in H. apply H.
  intros line. now exists line.
Qed.

Lemma fetched_sure (cfg : Config) (code : Z) (t : list event) :
  fetched cfg <> (SysExit code, t).
Proof.
  intros HF.
  apply (fetch_sure (API_KEY cfg) (STATION_ID cfg) (START_DATE cfg)
           (START_HH cfg) (END_DATE cfg) (END_HH cfg) code).
  fold fetch. fold (fetched cfg). rewrite HF. reflexivity.
Qed.


(** The files of a run, read off the same case analysis. *)
Lemma main_files (cfg : Config) :
  files_written (snd (script cfg)) =
    match fetched cfg with
    | (Val df, _) =>
        if frame_empty df then []
        else
          match to_csv (out_csv_name cfg) df false "utf-8-sig" with
          | Err _ => []
          | Ok _ =>
              out_csv_name cfg ::
                match getitem df "ws" with
                | None => []
                | Some col =>
                    match numeric_view col with
                    | None => []
                    | Some ws =>
                        match weibull_min_fit (usable ws) 0%float with
                        | Err _ => []
                        | Ok (k, _, c) =>
                            files_written
                              (snd (plot_hist_with_weibull pyplot ws k c
                                      (out_png_name cfg)))
                        end
                    end
                end
          end
    | _ => []
    end.
Proof.
  rewrite main_run.
  destruct (fetched cfg) as [[df|exc|code] t] eqn:HF; cbn [snd];
    try exact (fetched_no_files cfg _ t HF).
  pose proof (fetched_no_files cfg _ t HF) as Ht.
  destruct (frame_empty df); [exact Ht|].
  destruct (to_csv (out_csv_name cfg) df false "utf-8-sig") as [[]|exc];
    [|exact Ht].
  cbv zeta.
  destruct (getitem df "ws") as [col|]; cbn [snd].
  2:{ rewrite !files_written_app, Ht. reflexivity. }
  destruct (numeric_view col) as [ws|]; cbn [snd].
  2:{ rewrite !files_written_app, Ht. reflexivity. }
  destruct (weibull_min_fit (usable ws) 0%float) as [[[k loc] c]|exc]; cbn [snd].
  2:{ rewrite !files_written_app, Ht, fit_weibull_no_files. reflexivity. }
  destruct (fst (plot_hist_with_weibull pyplot ws k c (out_png_name cfg)));
    cbn [snd]; rewrite !files_written_app, Ht, fit_weibull_no_files;
    cbn [app]; try rewrite files_written_app; cbn;
    rewrite ?app_nil_r; reflexivity.
Qed.

Lemma names_from_prints (cfg : Config) : holds_of_prints (names_from cfg).
Proof. intros line. exact I. Qed.

Lemma plot_names (cfg : Config) (ws : list float) (k c : float) :
  Forall (names_from cfg)
    (snd (plot_hist_with_weibull pyplot ws k c (out_png_name cfg))).
Proof.
  apply Forall_forall. intros e He.
  apply plot_events in He as [-> | He]; [exact I|].
  unfold rendering, plot_calls in He. simpl in He.
  repeat (destruct He as [<- | He]; [try exact I|]); [reflexivity | contradiction].
Qed.

Lemma main_names (cfg : Config) : Forall (names_from cfg) (snd (script cfg)).
Proof.
  unfold script, main.
  apply Forall_bind; [apply fetch_prints, names_from_prints | intros df].
  apply Forall_bind; [destruct (frame_empty df); constructor | intros _].
  apply Forall_bind; [apply Forall_lift | intros _].
  apply Forall_bind; [repeat constructor | intros _].
  apply Forall_bind; [repeat constructor | intros _].
  apply Forall_bind; [|intros _].
  { destruct (negb (has_column df "ws")); repeat constructor. }
  apply Forall_bind; [|intros col].
  { unfold df_get. destruct (getitem df "ws"); constructor. }
  apply Forall_bind; [|intros ws].
  { unfold float64_values. destruct (numeric_view col); constructor. }
  apply Forall_bind; [|intros [k c]].
  { rewrite fit_weibull_run.
    destruct (List.length (usable ws) <? 100)%nat; repeat constructor. }
  apply Forall_bind; [repeat constructor | intros _].
  apply Forall_bind; [apply plot_names | intros _; repeat constructor].
Qed.

(** C8: every file a run of [main] writes is named from the station id and
    the two dates, [asos_<station>_<start>_<end>.csv] for the table and
    [asos_<station>_<start>_<end>_weibull.png] for the figure; for station
    108 from 20240101 to 20241231 these are the two literal names. *)
Theorem main_output_names (cfg : Config) :
  Forall (names_from cfg) (snd (script cfg)) /\
  (STATION_ID cfg = "108" -> START_DATE cfg = "20240101" ->
   END_DATE cfg = "20241231" ->
   forall e, In e (snd (script cfg)) ->
     match e with
     | ToCsv path _ _ _ => path = "asos_108_20240101_20241231.csv"
     | Plt (SaveFig path _) => path = "asos_108_20240101_20241231_weibull.png"
     | _ => True
     end).
Proof.
  split; [apply main_names|].
  intros Hst Hstart Hend e He.
  pose proof (main_names cfg) as Hall.
  rewrite Forall_forall in Hall. specialize (Hall e He).
  unfold names_from in Hall. rewrite Hst, Hstart, Hend in Hall.
  destruct e as [line|path df index enc|call]; try exact I.
  - exact Hall.
  - destruct call; try exact I. exact Hall.
Qed.

(** C10: when the fetched table has rows and columns but no "ws" column,
    [main] leaves through [sys.exit(1)] exactly when the CSV write returned;
    the run has then written the CSV before it reports the missing column,
    and nothing after the write touches a file, so the CSV is the file the
    run leaves behind. (A write that raises ends the run before the check.) *)
Theorem main_missing_ws_keeps_csv
    (cfg : Config) (df : DataFrame) (t : list event) :
  fetched cfg = (Val df, t) ->
  frame_empty df = false ->
  has_column df "ws" = false ->
  (fst (script cfg) = SysExit 1 <->
   to_csv (out_csv_name cfg) df false "utf-8-sig" = Ok tt) /\
  (fst (script cfg) = SysExit 1 ->
   script cfg =
     (SysExit 1,
      t ++ [ ToCsv (out_csv_name cfg) df false "utf-8-sig";
             Stdout [Lit "[INFO] CSV 저장: "; Lit (out_csv_name cfg);
                     Lit " (rows="; Int (nrows df); Lit ")"];
             Stdout ERROR_NO_WS;
             Stdout HINT_NO_WS;
             Stdout [Frame (head df)] ]) /\
   exit_status (fst (script cfg)) = 1%Z /\
   files_written (snd (script cfg)) = [out_csv_name cfg]).
Proof.
  intros HF Hempty Hws.
  destruct (to_csv (out_csv_name cfg) df false "utf-8-sig") as [[]|exc] eqn:Hcsv.
  - pose proof (main_no_ws cfg df t HF Hempty Hcsv Hws) as Hrun.
    split; [split; [reflexivity | intros _; rewrite Hrun; reflexivity]|].
    intros _. rewrite Hrun. repeat split. cbn [snd].
    rewrite files_written_app, (fetched_no_files cfg _ t HF). reflexivity.
  - pose proof (main_csv_raises cfg df t exc HF Hempty Hcsv) as Hrun.
    rewrite Hrun. cbn [fst].
    split; [split; discriminate | discriminate].
Qed.

(** When [main] leaves through [sys.exit]. *)
Lemma main_exits_iff (cfg : Config) (code : Z) :
  fst (script cfg) = SysExit code <->
  code = 1%Z /\
  exists df t, fetched cfg = (Val df, t) /\
    (frame_empty df = true \/
     (to_csv (out_csv_name cfg) df false "utf-8-sig" = Ok tt /\
      has_column df "ws" = false)).
Proof.
  split.
  - intros H. rewrite main_run in H.
    destruct (fetched cfg) as [[df|exc|code0] t] eqn:HF.
    + destruct (frame_empty df) eqn:He.
      * injection H as <-. split; [reflexivity|]. exists df, t. auto.
      * destruct (to_csv (out_csv_name cfg) df false "utf-8-sig") as [[]|exc]
          eqn:Hcsv; [|discriminate].
        cbv zeta in H. destruct (getitem df "ws") as [col|] eqn:Hc.
        -- destruct (numeric_view col) as [ws|]; [|discriminate].
           destruct (weibull_min_fit (usable ws) 0%float) as [[[k loc] c]|exc];
             [|discriminate].
           destruct (fst (plot_hist_with_weibull pyplot ws k c (out_png_name cfg)))
             eqn:HP; try discriminate.
           exfalso. exact (plot_sure pyplot ws k c (out_png_name cfg) _ HP).
        -- injection H as <-. split; [reflexivity|]. exists df, t.
           split; [reflexivity|]. right. split; [exact Hcsv|].
           rewrite has_column_assoc, Hc. reflexivity.
    + discriminate.
    + exfalso. exact (fetched_sure cfg code0 t HF).
  - intros [-> (df & t & HF & Hcase)]. rewrite main_run, HF.
    destruct (frame_empty df); [reflexivity|].
    destruct Hcase as [Habs | [Hcsv Hws]]; [discriminate|].
    rewrite Hcsv. rewrite has_column_assoc in Hws.
    destruct (getitem df "ws"); [discriminate | reflexivity].
Qed.

(** When [main] returns. *)
Lemma main_returns_iff (cfg : Config) :
  fst (script cfg) = Val tt <->
  exists df t col ws k loc c,
    fetched cfg = (Val df, t) /\ frame_empty df = false /\
    to_csv (out_csv_name cfg) df false "utf-8-sig" = Ok tt /\
    getitem df "ws" = Some col /\ numeric_view col = Some ws /\
    weibull_min_fit (usable ws) 0%float = Ok (k, loc, c) /\
    fst (plot_hist_with_weibull pyplot ws k c (out_png_name cfg)) = Val tt.
Proof.
  split.
  - intros H. rewrite main_run in H.
    destruct (fetched cfg) as [[df|exc|code0] t] eqn:HF; try discriminate.
    destruct (frame_empty df) eqn:He; [discriminate|].
    destruct (to_csv (out_csv_name cfg) df false "utf-8-sig") as [[]|exc]
      eqn:Hcsv; [|discriminate].
    cbv zeta in H. destruct (getitem df "ws") as [col|] eqn:Hc; [|discriminate].
    destruct (numeric_view col) as [ws|] eqn:Hview; [|discriminate].
    destruct (weibull_min_fit (usable ws) 0%float) as [[[k loc] c]|exc] eqn:Hfit;
      [|discriminate].
    destruct (fst (plot_hist_with_weibull pyplot ws k c (out_png_name cfg)))
      as [[]|exc|code0] eqn:HP; try discriminate.
    exists df, t, col, ws, k, loc, c. repeat split; assumption.
  - intros (df & t & col & ws & k & loc & c & HF & He & Hcsv & Hc & Hview & Hfit & HP).
    rewrite main_run, HF, He, Hcsv, Hc, Hview, Hfit. cbv zeta. rewrite HP.
    reflexivity.
Qed.

(** C5, as the code has it: [main] leaves through [sys.exit], always with
    code 1, in exactly two cases: the fetched table is empty (which is what a
    reply without items gives, after the error line), or the CSV is written
    and the table has no "ws" column (after the two error lines and a dump of
    the first rows). It returns, status 0, exactly when the table is there
    and written, its "ws" column is numeric, the library fit answers and the
    plotting step returns, which it does when there is nothing to plot or
    matplotlib takes every call. An exception raised on the way is not caught
    and ends the process with status 1 as well. *)
Theorem main_exit_status (cfg : Config) :
  (forall code,
     fst (script cfg) = SysExit code <->
     code = 1%Z /\
     exists df t, fetched cfg = (Val df, t) /\
       (frame_empty df = true \/
        (to_csv (out_csv_name cfg) df false "utf-8-sig" = Ok tt /\
         has_column df "ws" = false))) /\
  (forall r j rc items,
     requests_get BASE_URL
       (query (API_KEY cfg) (STATION_ID cfg) (START_DATE cfg) (START_HH cfg)
              (END_DATE cfg) (END_HH cfg)) 60 = Ok r ->
     raise_for_status r = (Val tt, []) ->
     json_body r = Ok j ->
     result_code_of j = Ok rc ->
     items_of j = Ok items ->
     truthy items = false ->
     exists t, fetched cfg = (Val empty_frame, t ++ [Stdout ERROR_NO_DATA]) /\
               script cfg = (SysExit 1, t ++ [Stdout ERROR_NO_DATA])) /\
  (forall df t,
     fetched cfg = (Val df, t) -> frame_empty df = false ->
     to_csv (out_csv_name cfg) df false "utf-8-sig" = Ok tt ->
     has_column df "ws" = false ->
     exists t', snd (script cfg) =
                  t' ++ [Stdout ERROR_NO_WS; Stdout HINT_NO_WS;
                         Stdout [Frame (head df)]]) /\
  (fst (script cfg) = Val tt <->
   exists df t col ws k loc c,
     fetched cfg = (Val df, t) /\ frame_empty df = false /\
     to_csv (out_csv_name cfg) df false "utf-8-sig" = Ok tt /\
     getitem df "ws" = Some col /\ numeric_view col = Some ws /\
     weibull_min_fit (usable ws) 0%float = Ok (k, loc, c) /\
     (usable ws = [] \/
      forall call, In call (plot_calls (usable ws) k c (out_png_name cfg)) ->
                   pyplot call = Ok tt)) /\
  (exit_status (fst (script cfg)) = 0%Z <-> fst (script cfg) = Val tt) /\
  (exit_status (fst (script cfg)) = 1%Z <->
   fst (script cfg) = SysExit 1 \/ exists exc, fst (script cfg) = Raise exc).
Proof.
  split; [exact (main_exits_iff cfg)|].
  split.
  { intros r j rc items Hget Hstatus Hjson Hrc Hitems Hfalsy.
    destruct (fetch_no_items _ _ _ _ _ _ r j rc items
                Hget Hstatus Hjson Hrc Hitems Hfalsy) as [t HF].
    exists t. split; [exact HF|].
    apply (main_empty_frame cfg empty_frame); [exact HF | reflexivity]. }
  split.
  { intros df t HF He Hcsv Hws. rewrite (main_no_ws cfg df t HF He Hcsv Hws).
    cbn [snd].
    exists (t ++ [ToCsv (out_csv_name cfg) df false "utf-8-sig";
                  Stdout [Lit "[INFO] CSV 저장: "; Lit (out_csv_name cfg);
                          Lit " (rows="; Int (nrows df); Lit ")"]]).
    rewrite <- app_assoc. reflexivity. }
  split.
  { etransitivity; [exact (main_returns_iff cfg)|]. split.
    - intros (df & t & col & ws & k & loc & c
              & HF & He & Hcsv & Hc & Hview & Hfit & HP).
      exists df, t, col, ws, k, loc, c.
      apply plot_returns_iff in HP. auto 10.
    - intros (df & t & col & ws & k & loc & c
              & HF & He & Hcsv & Hc & Hview & Hfit & HP).
      exists df, t, col, ws, k, loc, c.
      apply plot_returns_iff in HP. auto 10. }
  pose proof (main_exits_iff cfg) as Hexit.
  split.
  - split.
    + destruct (fst (script cfg)) as [[]|exc|code] eqn:Hrun; simpl;
        try discriminate; [reflexivity|].
      intros ->. destruct (proj1 (Hexit 0%Z) eq_refl) as [H _]. discriminate H.
    + intros ->. reflexivity.
  - split.
    + destruct (fst (script cfg)) as [[]|exc|code] eqn:Hrun; simpl.
      * discriminate.
      * intros _. right. now exists exc.
      * intros ->. now left.
    + intros [->|[exc ->]]; reflexivity.
Qed.

Lemma string_app_assoc (s1 s2 s3 : string) :
  ((s1 ++ s2) ++ s3 = s1 ++ (s2 ++ s3))%string.
Proof.
  induction s1 as [|a s1 IH]; simpl.
  - reflexivity.
  - rewrite IH. reflexivity.
Qed.

Lemma out_png_name_png (cfg : Config) : png_name (out_png_name cfg).
Proof.
  exists ("asos_" ++ STATION_ID cfg ++ "_" ++ START_DATE cfg ++ "_"
                  ++ END_DATE cfg ++ "_weibull")%string.
  unfold out_png_name.
  change "_weibull.png" with ("_weibull" ++ ".png")%string.
  rewrite !string_app_assoc. reflexivity.
Qed.

(** C7, as the code has it: when some entry is usable and matplotlib takes
    every call, the plotting step draws, on one figure, a histogram of the
    usable wind speeds with 40 bins normalised to a density and the Weibull
    density of shape [k] and scale [c] on a grid of 400 points from 0 to
    [max(observed maximum, 15)] (the right end is 15 or one of the usable
    entries, it is not below 15 and no usable entry is above it), saves the
    figure under the name given, and returns. When a call raises, the step
    ends with that exception, the later calls are not made and nothing is
    saved. In [main] the name given ends in [.png], the raster format. *)
Theorem plot_hist_with_weibull_renders
    (ws : list float) (k c : float) (out_png : string) :
  usable ws <> [] ->
  let x := Linspace 0%float (py_max (series_max (usable ws)) 15%float) 400 in
  let calls := plot_calls (usable ws) k c out_png in
  ((forall call, In call calls -> pyplot call = Ok tt) ->
   plot_hist_with_weibull pyplot ws k c out_png =
     (Val tt,
      [ Plt (Figure 8 5);
        Plt (Hist (usable ws) 40 true 0.5%float "Observed wind speed");
        Plt (Plot x (WeibullPdf x k c) 2
               [Lit "Weibull PDF (k="; Fixed 2 k; Lit ", c="; Fixed 2 c; Lit ")"]);
        Plt (Title "Wind Speed Distribution & Fitted Weibull");
        Plt (XLabel "Wind speed (m/s)");
        Plt (YLabel "Density");
        Plt Legend;
        Plt (Grid true ":");
        Plt TightLayout;
        Plt (SaveFig out_png 150);
        Stdout [Lit "[INFO] 그래프 저장: "; Lit out_png] ]) /\
   files_written (snd (plot_hist_with_weibull pyplot ws k c out_png)) = [out_png]) /\
  (forall exc,
     fst (plot_hist_with_weibull pyplot ws k c out_png) = Raise exc ->
     exists pre call post,
       calls = pre ++ call :: post /\
       (forall made, In made pre -> pyplot made = Ok tt) /\
       pyplot call = Err exc /\
       snd (plot_hist_with_weibull pyplot ws k c out_png) = map Plt pre /\
       files_written (snd (plot_hist_with_weibull pyplot ws k c out_png)) = []) /\
  (fst (plot_hist_with_weibull pyplot ws k c out_png) = Val tt <->
   forall call, In call calls -> pyplot call = Ok tt) /\
  (stop x = 15%float \/ In (stop x) (usable ws)) /\
  (stop x <? 15)%float = false /\
  (forall y, In y (usable ws) -> (stop x <? y)%float = false) /\
  (forall cfg path dpi,
     In (Plt (SaveFig path dpi)) (snd (script cfg)) -> png_name path).
Proof.
  intros Hdata x calls.
  pose proof (plot_cases pyplot ws k c out_png) as Hcases. fold calls in Hcases.
  split; [|split; [|split; [|split; [|split; [|split]]]]].
  - intros Hall.
    rewrite plot_run.
    destruct (series_empty (usable ws)) eqn:Hempty.
    { apply series_empty_nil in Hempty. contradiction. }
    rewrite (play_then_ok pyplot _ _ Hall). split; reflexivity.
  - intros exc Hexc.
    destruct Hcases
      as [[Hnil _] | [(_ & _ & Hrun)
         | (_ & pre & call & post & e & Hcut & Hpre & Hcall & Hrun)]].
    + contradiction.
    + rewrite Hrun in Hexc. discriminate.
    + rewrite Hrun in Hexc. injection Hexc as ->.
      exists pre, call, post. rewrite Hrun. cbn [snd].
      repeat split; try assumption.
      exact (plot_calls_cut _ _ _ _ _ _ _ Hcut).
  - destruct Hcases
      as [[Hnil _] | [(_ & Hall & Hrun)
         | (_ & pre & call & post & e & Hcut & Hpre & Hcall & Hrun)]].
    + contradiction.
    + rewrite Hrun. split; [intros _; exact Hall | reflexivity].
    + rewrite Hrun. split; [discriminate|].
      intros Hall. rewrite Hall in Hcall; [discriminate|].
      rewrite Hcut. apply in_or_app. right. now left.
  - cbn [x stop].
    destruct (py_max_cases (series_max (usable ws)) 15%float) as [-> | ->];
      [right; now apply series_max_In | now left].
  - apply py_max_bound_r.
  - intros y Hy. apply py_max_bound. now apply series_max_bound.
  - intros cfg path dpi Hin.
    pose proof (main_names cfg) as Hall. rewrite Forall_forall in Hall.
    specialize (Hall _ Hin). cbn in Hall. rewrite Hall.
    apply out_png_name_png.
Qed.

(** * Further properties of the script *)

(** X1: whatever the libraries answer, [fetch_asos_hourly] only prints: it
    writes no file, draws nothing, and never leaves through [sys.exit]. *)
Theorem fetch_only_prints
    (api_key stn_id start_dt start_hh end_dt end_hh : string) :
  only_prints (snd (fetch api_key stn_id start_dt start_hh end_dt end_hh)) /\
  files_written (snd (fetch api_key stn_id start_dt start_hh end_dt end_hh)) = [] /\
  forall code, fst (fetch api_key stn_id start_dt start_hh end_dt end_hh)
               <> SysExit code.
Proof.
  assert (H : only_prints (snd (fetch api_key stn_id start_dt start_hh end_dt end_hh))).
  { apply (fetch_prints (fun e => exists line, e = Stdout line)).
    intros line. now exists line. }
  split; [exact H|]. split; [now apply only_prints_no_files|].
  apply fetch_sure.
Qed.

(** X2: a failed transport reaches the top as it is. When [requests.get]
    raises, when the status is 4xx or 5xx, or when the body does not decode,
    [main] ends with that exception having printed the request line only:
    status 1, no file. With an error status the body is not looked at. *)
Theorem main_transport_failure (cfg : Config) :
  let q := query (API_KEY cfg) (STATION_ID cfg) (START_DATE cfg) (START_HH cfg)
                 (END_DATE cfg) (END_HH cfg) in
  (forall exc,
     requests_get BASE_URL q 60 = Err exc ->
     script cfg = (Raise exc, [Stdout REQUEST_LINE])) /\
  (forall r,
     requests_get BASE_URL q 60 = Ok r ->
     (400 <= status_code r < 600)%Z ->
     script cfg = (Raise "HTTPError", [Stdout REQUEST_LINE])) /\
  (forall r exc,
     requests_get BASE_URL q 60 = Ok r ->
     (status_code r < 400 \/ 600 <= status_code r)%Z ->
     json_body r = Err exc ->
     script cfg = (Raise exc, [Stdout REQUEST_LINE])).
Proof.
  intros q. repeat split.
  - intros exc Hget.
    apply main_fetch_raises. unfold fetched, fetch, fetch_asos_hourly.
    cbv zeta. fold q. rewrite bind_print, Hget. reflexivity.
  - intros r Hget Hstatus.
    apply main_fetch_raises. unfold fetched, fetch, fetch_asos_hourly.
    cbv zeta. fold q.
    rewrite bind_print, Hget, bind_lift_ok. unfold raise_for_status.
    replace ((400 <=? status_code r) && (status_code r <? 600))%Z with true;
      [reflexivity|].
    symmetry. apply andb_true_iff. split; [apply Z.leb_le | apply Z.ltb_lt]; lia.
  - intros r exc Hget Hstatus Hjson.
    apply main_fetch_raises. unfold fetched, fetch, fetch_asos_hourly.
    cbv zeta. fold q.
    rewrite bind_print, Hget, bind_lift_ok, (raise_for_status_ok r Hstatus).
    change (@pair (Res unit) (list event) (Val tt) []) with (ret tt).
    rewrite bind_ret, Hjson. reflexivity.
Qed.

(** X3: a frame that [fetch_asos_hourly] returns is either the empty frame,
    right after the no-data error line, or the frame pandas built from a
    non-empty item list with nothing added or dropped: the same columns in
    the same order, which are the ones on the column line just printed, the
    same number of rows, and every column outside tm, ws, wd, ta, hm with the
    dtype it was built with. *)
Theorem fetch_frame_shape
    (api_key stn_id start_dt start_hh end_dt end_hh : string)
    (df : DataFrame) (t : list event) :
  fetch api_key stn_id start_dt start_hh end_dt end_hh = (Val df, t) ->
  (df = empty_frame /\ exists t0, t = t0 ++ [Stdout ERROR_NO_DATA]) \/
  (exists items df0 t0,
     truthy items = true /\ pd_DataFrame items = Ok df0 /\
     t = t0 ++ [Stdout (COLUMNS_LINE df)] /\
     columns df = columns df0 /\ nrows df = nrows df0 /\
     (forall n c, ~ In n CONVERTED -> getitem df n = Some c ->
        exists c0, getitem df0 n = Some c0 /\ same_dtype c c0)).
Proof.
  intros H.
  apply fetch_val_inv in H
    as (r & j & rc & items & t0 & t1 & _ & _ & _ & _ & Htail & ->).
  apply tabulate_val_inv in Htail
    as [(_ & -> & ->) | (Htruthy & df0 & Hdf0 & -> & Hcols & Hrows & Hother)].
  - left. split; [reflexivity | now exists t0].
  - right. exists items, df0, t0. unfold COLUMNS_LINE. rewrite Hcols.
    repeat split; assumption.
Qed.



(** The exceptions of a run, by the step that raised. *)
Lemma main_raises_cases (cfg : Config) (exc : string) :
  fst (script cfg) = Raise exc <->
  (exists t, fetched cfg = (Raise exc, t)) \/
  (exists df t,
     fetched cfg = (Val df, t) /\ frame_empty df = false /\
     (to_csv (out_csv_name cfg) df false "utf-8-sig" = Err exc \/
      (to_csv (out_csv_name cfg) df false "utf-8-sig" = Ok tt /\
       exists col,
         getitem df "ws" = Some col /\
         ((numeric_view col = None /\ exc = "TypeError") \/
          (exists ws,
             numeric_view col = Some ws /\
             (weibull_min_fit (usable ws) 0%float = Err exc \/
              exists k loc c,
                weibull_min_fit (usable ws) 0%float = Ok (k, loc, c) /\
                fst (plot_hist_with_weibull pyplot ws k c (out_png_name cfg))
                  = Raise exc)))))).
Proof.
  rewrite main_run.
  destruct (fetched cfg) as [[df|e|code] t] eqn:HF.
  2:{ split.
      - intros H. injection H as ->. left. now exists t.
      - intros [[t' E] | (df & t' & E & _)]; [|discriminate E].
        injection E as -> _. reflexivity. }
  2:{ exfalso. exact (fetched_sure cfg code t HF). }
  split.
  - intros H. right. exists df, t. split; [reflexivity|].
    destruct (frame_empty df); [discriminate H|]. split; [reflexivity|].
    destruct (to_csv (out_csv_name cfg) df false "utf-8-sig") as [[]|e].
    2:{ injection H as ->. now left. }
    right. split; [reflexivity|].
    destruct (getitem df "ws") as [col|]; [|discriminate H].
    exists col. split; [reflexivity|].
    destruct (numeric_view col) as [ws|].
    2:{ injection H as <-. left. now split. }
    right. exists ws. split; [reflexivity|]. cbv zeta in H.
    destruct (weibull_min_fit (usable ws) 0%float) as [[[k loc] c]|e].
    2:{ injection H as ->. now left. }
    right. exists k, loc, c. split; [reflexivity|].
    destruct (fst (plot_hist_with_weibull pyplot ws k c (out_png_name cfg)))
      as [[]|e|code]; [discriminate H | | discriminate H].
    injection H as ->. reflexivity.
  - intros [[t' E] | (df' & t' & E & He & H)]; [discriminate E|].
    injection E as <- <-. rewrite He.
    destruct H as [Hcsv | (Hcsv & col & Hc & H)]; rewrite Hcsv; [reflexivity|].
    rewrite Hc.
    destruct H as [(Hview & ->) | (ws & Hview & H)]; rewrite Hview;
      [reflexivity|].
    cbv zeta.
    destruct H as [Hfit | (k & loc & c & Hfit & HP)]; rewrite Hfit;
      [reflexivity|].
    rewrite HP. reflexivity.
Qed.

(** X6: [main] ends with an exception in five ways only: the fetch raised
    it; the CSV write raised it; the "ws" column cannot be read as floats
    (TypeError); the library fit raised it; or, with some wind speed usable,
    a call of the plotting step raised it after the calls before it had
    returned. Looking the column up never fails by itself. *)
Theorem main_raises_iff (cfg : Config) (exc : string) :
  fst (script cfg) = Raise exc <->
  (exists t, fetched cfg = (Raise exc, t)) \/
  (exists df t,
     fetched cfg = (Val df, t) /\ frame_empty df = false /\
     (to_csv (out_csv_name cfg) df false "utf-8-sig" = Err exc \/
      (to_csv (out_csv_name cfg) df false "utf-8-sig" = Ok tt /\
       exists col,
         getitem df "ws" = Some col /\
         ((numeric_view col = None /\ exc = "TypeError") \/
          (exists ws,
             numeric_view col = Some ws /\
             (weibull_min_fit (usable ws) 0%float = Err exc \/
              exists k loc c,
                weibull_min_fit (usable ws) 0%float = Ok (k, loc, c) /\
                usable ws <> [] /\
                exists pre call post,
                  plot_calls (usable ws) k c (out_png_name cfg)
                    = pre ++ call :: post /\
                  (forall made, In made pre -> pyplot made = Ok tt) /\
                  pyplot call = Err exc)))))).
Proof.
  etransitivity; [exact (main_raises_cases cfg exc)|].
  setoid_rewrite plot_raises_iff. reflexivity.
Qed.

(** X7: when the library fit raises, [main] ends with that exception after
    the CSV is written and before any result line or figure: status 1, and
    the CSV is the one file left. *)
Theorem main_fit_raises
    (cfg : Config) (df : DataFrame) (t : list event) (col : column)
    (ws : list float) (exc : string) :
  fetched cfg = (Val df, t) -> frame_empty df = false ->
  to_csv (out_csv_name cfg) df false "utf-8-sig" = Ok tt ->
  getitem df "ws" = Some col -> numeric_view col = Some ws ->
  weibull_min_fit (usable ws) 0%float = Err exc ->
  script cfg =
    (Raise exc,
     t ++ [ToCsv (out_csv_name cfg) df false "utf-8-sig"; Stdout (CSV_LINE cfg df)]
       ++ (if (List.length (usable ws) <? 100)%nat
           then [Stdout WARN_FEW_SAMPLES] else [])) /\
  exit_status (fst (script cfg)) = 1%Z /\
  files_written (snd (script cfg)) = [out_csv_name cfg].
Proof.
  intros HF He Hcsv Hc Hview Hfit.
  rewrite main_files, HF, He, Hcsv, Hc, Hview, Hfit.
  rewrite (main_run_with_ws cfg df t col ws HF He Hcsv Hc Hview), Hfit,
    fit_weibull_run.
  repeat split.
Qed.

(** X8: a run in which the CSV write and the library fit return and
    matplotlib takes every call does its steps in this order, each on what the one before
    produced: the lines of the fetch; the CSV of the fetched frame and its
    line; the fit of the "ws" column read as floats; the result line with the
    fitted shape and scale; the plot of the same column with the same shape
    and scale, under the PNG name; the mean of the non-missing wind speeds,
    negative ones included; the closing lines. *)
Theorem main_success
    (cfg : Config) (df : DataFrame) (t : list event) (col : column)
    (ws : list float) (k loc c : float) :
  fetched cfg = (Val df, t) -> frame_empty df = false ->
  to_csv (out_csv_name cfg) df false "utf-8-sig" = Ok tt ->
  getitem df "ws" = Some col -> numeric_view col = Some ws ->
  weibull_min_fit (usable ws) 0%float = Ok (k, loc, c) ->
  (usable ws = [] \/
   forall call, In call (plot_calls (usable ws) k c (out_png_name cfg)) ->
                pyplot call = Ok tt) ->
  script cfg =
    (Val tt,
     t ++ [ToCsv (out_csv_name cfg) df false "utf-8-sig"; Stdout (CSV_LINE cfg df)]
       ++ snd (fit_weibull weibull_min_fit ws)
       ++ [Stdout (RESULT_LINE k c)]
       ++ snd (plot_hist_with_weibull pyplot ws k c (out_png_name cfg))
       ++ Stdout (MEAN_LINE (series_mean (dropna ws))) :: NEXT_STEPS) /\
  fst (fit_weibull weibull_min_fit ws) = Val (k, c) /\
  (usable ws <> [] ->
   snd (plot_hist_with_weibull pyplot ws k c (out_png_name cfg))
     = rendering (usable ws) k c (out_png_name cfg)).
Proof.
  intros HF He Hcsv Hc Hview Hfit HP. apply plot_returns_iff in HP.
  split; [|split].
  - rewrite (main_run_with_ws cfg df t col ws HF He Hcsv Hc Hview), Hfit.
    cbv zeta. rewrite HP, <- !app_assoc. reflexivity.
  - rewrite fit_weibull_run, Hfit. reflexivity.
  - intros Hdata.
    destruct (plot_cases pyplot ws k c (out_png_name cfg))
      as [[Hnil _] | [(_ & _ & ->)
         | (_ & pre & call & post & e & _ & _ & _ & Hrun)]].
    + contradiction.
    + reflexivity.
    + rewrite Hrun in HP. discriminate HP.
Qed.

(** X10: a reply that decodes to a dict without a "response" key is taken for
    a reply without data: every lookup falls back on its default, so the
    header warning shows [None], the no-data error line follows, and [main]
    leaves through [sys.exit(1)] with no file written. *)
Theorem main_reply_without_response
    (cfg : Config) (r : Response) (kvs : list (string * json)) :
  requests_get BASE_URL
    (query (API_KEY cfg) (STATION_ID cfg) (START_DATE cfg) (START_HH cfg)
           (END_DATE cfg) (END_HH cfg)) 60 = Ok r ->
  (status_code r < 400 \/ 600 <= status_code r)%Z ->
  json_body r = Ok (JObj kvs) ->
  assoc "response" kvs = None ->
  script cfg =
    (SysExit 1,
     [Stdout REQUEST_LINE; Stdout (HEADER_LINE JNull); Stdout ERROR_NO_DATA]) /\
  files_written (snd (script cfg)) = [].
Proof.
  intros Hget Hstatus Hjson Hmissing.
  assert (HF : fetched cfg =
                 (Val empty_frame,
                  [Stdout REQUEST_LINE; Stdout (HEADER_LINE JNull);
                   Stdout ERROR_NO_DATA])).
  { unfold fetched.
    rewrite (fetch_on_reply _ _ _ _ _ _ r (JObj kvs) JNull JNull (JArr [])
               Hget (raise_for_status_ok r Hstatus) Hjson).
    - reflexivity.
    - unfold result_code_of. simpl. rewrite Hmissing. reflexivity.
    - unfold header_of. simpl. rewrite Hmissing. reflexivity.
    - unfold items_of. simpl. rewrite Hmissing. reflexivity. }
  rewrite (main_empty_frame cfg empty_frame _ HF eq_refl).
  split; reflexivity.
Qed.

(** X11: a reply that decodes but is not shaped as the lookups expect (the
    document, or the value under "response", "header", "body" or "items", is
    there and is not a dict) makes a lookup raise AttributeError: [main] ends
    with it, status 1, nothing written. *)
Theorem main_malformed_reply (cfg : Config) (r : Response) (j : json) :
  requests_get BASE_URL
    (query (API_KEY cfg) (STATION_ID cfg) (START_DATE cfg) (START_HH cfg)
           (END_DATE cfg) (END_HH cfg)) 60 = Ok r ->
  (status_code r < 400 \/ 600 <= status_code r)%Z ->
  json_body r = Ok j ->
  (exists exc, result_code_of j = Err exc) \/ (exists exc, items_of j = Err exc) ->
  fst (script cfg) = Raise "AttributeError" /\
  exit_status (fst (script cfg)) = 1%Z /\
  files_written (snd (script cfg)) = [].
Proof.
  intros Hget Hstatus Hjson Hbad.
  assert (HF : exists t, fetched cfg = (Raise "AttributeError", t)).
  { unfold fetched, fetch, fetch_asos_hourly. cbv zeta.
    rewrite bind_print, Hget, bind_lift_ok, (raise_for_status_ok r Hstatus).
    change (@pair (Res unit) (list event) (Val tt) []) with (ret tt).
    rewrite bind_ret, Hjson, bind_lift_ok.
    destruct (result_code_of j) as [rc|exc] eqn:Hrc.
    - destruct Hbad as [[exc Hexc] | [exc Hitems]]; [discriminate|].
      pose proof (items_of_err j exc Hitems) as ->.
      destruct (header_of_ok j rc Hrc) as [h Hh].
      rewrite bind_lift_ok.
      destruct (differs_from_str rc "00").
      + rewrite Hh, bind_lift_ok, bind_print. cbn [fst snd].
        rewrite Hitems. eexists. reflexivity.
      + rewrite bind_ret, Hitems. eexists. reflexivity.
    - pose proof (result_code_of_err j exc Hrc) as ->.
      eexists. reflexivity. }
  destruct HF as [t HF].
  rewrite (main_fetch_raises cfg _ t HF). cbn [fst snd]. repeat split.
  exact (fetched_no_files cfg _ t HF).
Qed.

End MainProperties.

(** ** The script on canned replies *)

Lemma main_exit_status_witness :
  exists t,
    Canned.fetched (Canned.answers 200 (JArr [])) =
      (Val empty_frame, t ++ [Stdout ERROR_NO_DATA]) /\
    Canned.run (Canned.answers 200 (JArr [])) =
      (SysExit 1, t ++ [Stdout ERROR_NO_DATA]).
Proof.
  destruct (main_exit_status (Canned.answers 200 (JArr [])) Canned.DataFrame_of
              Canned.to_datetime Canned.in_order Canned.to_numeric Canned.fit
              Canned.mean Canned.to_csv Canned.pyplot CONFIG) as (_ & Hnone & _).
  apply (Hnone (mkResponse 200 (Ok (Canned.reply (JArr []))))
               (Canned.reply (JArr [])) (JStr "00") (JArr []));
    reflexivity.
Defined.

(** C5, as stated, fails on a reply with HTTP status 500: the item list has
    three observations, each with a wind speed, yet [raise_for_status] raises,
    nothing catches the exception, no table is returned, and the process ends
    with status 1. *)
Lemma main_exit_status_counterexample :
  Canned.run (Canned.answers 500 Canned.three_items) =
    (Raise "HTTPError", [Stdout [Lit "[INFO] 요청:"; Lit " "; Lit BASE_URL]]) /\
  exit_status (fst (Canned.run (Canned.answers 500 Canned.three_items))) = 1%Z /\
  items_of (Canned.reply Canned.three_items) = Ok Canned.three_items /\
  truthy Canned.three_items = true /\
  (exists df, Canned.DataFrame_of Canned.three_items = Ok df /\
              has_column df "ws" = true) /\
  ~ (exists df t,
       Canned.fetched (Canned.answers 500 Canned.three_items) = (Val df, t)).
Proof.
  repeat split.
  - eexists. split; reflexivity.
  - intros (df & t & H). vm_compute in H. discriminate H.
Qed.

Lemma plot_hist_with_weibull_renders_witness :
  usable Canned.mixed_sample = [3%float; 5.5%float; 0%float; 9%float] /\
  py_max (series_max (usable Canned.mixed_sample)) 15%float = 15%float /\
  plot_hist_with_weibull Canned.pyplot Canned.mixed_sample 2%float 5%float "w.png"
    = (Val tt,
       rendering [3%float; 5.5%float; 0%float; 9%float] 2%float 5%float "w.png") /\
  files_written
    (snd (plot_hist_with_weibull Canned.pyplot Canned.mixed_sample 2%float
            5%float "w.png"))
    = ["w.png"].
Proof.
  split; [reflexivity | split; [reflexivity | ]].
  destruct (plot_hist_with_weibull_renders
              (Canned.answers 200 Canned.three_items) Canned.DataFrame_of
              Canned.to_datetime Canned.in_order Canned.to_numeric Canned.fit
              Canned.mean Canned.to_csv Canned.pyplot
              Canned.mixed_sample 2%float 5%float "w.png") as (Hok & _).
  - vm_compute. discriminate.
  - apply Hok. intros call Hcall. simpl in Hcall.
    repeat (destruct Hcall as [<- | Hcall]; [reflexivity|]). contradiction.
Defined.

(** C7, as stated, fails on the series [3, inf]: both entries are usable, the
    figure is opened, the histogram call raises ValueError (its range is not
    finite), and the step ends there: no curve is drawn and no image is
    saved. *)
Lemma plot_hist_with_weibull_renders_counterexample :
  usable [3%float; infinity] = [3%float; infinity] /\
  Canned.pyplot (Hist [3%float; infinity] 40 true 0.5%float "Observed wind speed")
    = Err "ValueError" /\
  plot_hist_with_weibull Canned.pyplot [3%float; infinity] 2%float 5%float "w.png"
    = (Raise "ValueError", [Plt (Figure 8 5)]) /\
  files_written
    (snd (plot_hist_with_weibull Canned.pyplot [3%float; infinity] 2%float
            5%float "w.png")) = [].
Proof. repeat split. Qed.

Lemma main_output_names_witness :
  Forall (names_from CONFIG)
    (snd (Canned.run (Canned.answers 200 Canned.three_items))) /\
  files_written (snd (Canned.run (Canned.answers 200 Canned.three_items))) =
    ["asos_108_20240101_20241231.csv"; "asos_108_20240101_20241231_weibull.png"].
Proof.
  split.
  - apply (main_output_names (Canned.answers 200 Canned.three_items)
             Canned.DataFrame_of Canned.to_datetime Canned.in_order
             Canned.to_numeric Canned.fit Canned.mean Canned.to_csv Canned.pyplot
             CONFIG).
  - reflexivity.
Defined.

Lemma main_missing_ws_keeps_csv_witness :
  exit_status (fst (Canned.run (Canned.answers 200 Canned.no_ws_items))) = 1%Z /\
  files_written (snd (Canned.run (Canned.answers 200 Canned.no_ws_items))) =
    ["asos_108_20240101_20241231.csv"].
Proof.
  destruct (main_missing_ws_keeps_csv (Canned.answers 200 Canned.no_ws_items)
              Canned.DataFrame_of Canned.to_datetime Canned.in_order
              Canned.to_numeric Canned.fit Canned.mean Canned.to_csv Canned.pyplot
              CONFIG
              (mkFrame 1 [("tm", Datetime [Some 1%Z]); ("ta", Numeric [3.5%float])])
              [Stdout [Lit "[INFO] 요청:"; Lit " "; Lit BASE_URL];
               Stdout [Lit "[INFO] 컬럼:"; Lit " "; Names ["tm"; "ta"]]])
    as (Hiff & Hrun); [reflexivity | reflexivity | reflexivity |].
  destruct (Hrun (proj2 Hiff eq_refl)) as (_ & Hstatus & Hfiles).
  split; [exact Hstatus | exact Hfiles].
Defined.

(** A reply with three observations runs to the end: status 0, both files. *)
Example run_three_observations :
  exit_status (fst (Canned.run (Canned.answers 200 Canned.three_items))) = 0%Z /\
  files_written (snd (Canned.run (Canned.answers 200 Canned.three_items))) =
    [out_csv_name CONFIG; out_png_name CONFIG].
Proof. split; reflexivity. Qed.

(** With a full disk the same reply ends on the exception of the write: no
    file, no fit, no figure. *)
Example run_full_disk :
  main (Canned.answers 200 Canned.three_items) Canned.DataFrame_of
       Canned.to_datetime Canned.in_order Canned.to_numeric Canned.fit Canned.mean
       Canned.to_csv_fails Canned.pyplot CONFIG
    = (Raise "OSError",
       [Stdout REQUEST_LINE; Stdout [Lit "[INFO] 컬럼:"; Lit " "; Names ["tm"; "ws"; "wd"]]]).
Proof. reflexivity. Qed.

(** Negative zero and infinity pass the filters; NaN and negatives do not. *)
Example usable_edge_values :
  usable [nan; (-0)%float; (-1)%float; infinity; neg_infinity; 3%float] =
    [(-0)%float; infinity; 3%float].
Proof. reflexivity. Qed.

(** ** The filters, again *)

(** A value that passes [>= 0] is not NaN. *)
Lemma leb_zero_not_nan (x : float) : (0 <=? x)%float = true -> is_nan x = false.
Proof.
  unfold is_nan. rewrite leb_spec, eqb_spec.
  unfold SFleb, SFeqb.
  replace (Prim2SF 0%float) with (S754_zero false) by reflexivity.
  destruct (Prim2SF x) as [s|s| |s m e]; simpl; try discriminate; try reflexivity.
  - destruct s; reflexivity.
  - intros _. destruct s; rewrite Z.compare_refl; fold (Pos.compare m m);
      rewrite Pos.compare_refl; reflexivity.
Qed.

Lemma filter_implied {A : Type} (p q : A -> bool) (l : list A) :
  (forall x, q x = true -> p x = true) -> filter q (filter p l) = filter q l.
Proof.
  intros Himp. induction l as [|x l IH]; simpl.
  - reflexivity.
  - destruct (p x) eqn:Hp; simpl.
    + rewrite IH. reflexivity.
    + destruct (q x) eqn:Hq; [|exact IH].
      rewrite (Himp x Hq) in Hp. discriminate.
Qed.

(** X12: the comparison [ws >= 0] already rejects missing values, so the
    sample that [fit_weibull] and [plot_hist_with_weibull] work on is the
    series filtered by [>= 0] alone; [dropna] by itself, which is what the
    mean in [main] is taken over, keeps the negative readings. *)
Theorem usable_is_nonneg (ws : list float) :
  usable ws = nonneg ws /\
  (forall x, In x (dropna ws) <-> In x ws /\ is_nan x = false) /\
  (forall x, In x (usable ws) -> In x (dropna ws)) /\
  (List.length (usable ws) <= List.length (dropna ws) <= List.length ws)%nat.
Proof.
  split; [|split; [|split]].
  - unfold usable, nonneg, dropna. apply filter_implied.
    intros x Hx. now rewrite (leb_zero_not_nan x Hx).
  - intros x. unfold dropna. rewrite filter_In, negb_true_iff. tauto.
  - intros x Hx. unfold usable, nonneg in Hx. apply filter_In in Hx. tauto.
  - unfold usable, nonneg, dropna. split; apply filter_length_le.
Qed.

(** X14: the result code of the reply is never fatal by itself. Two replies
    that carry the same items give the same outcome of the fetch, the same
    frame or the same exception, whatever their result codes; the printed
    lines differ in the header warning alone, which is there exactly for a
    code other than the string "00". *)
Theorem fetch_result_code_not_fatal
    (net1 net2 : string -> list (string * string) -> Z -> Try Response)
    (pd_DataFrame : json -> Try DataFrame)
    (pd_to_datetime : column -> Try (list (option Z)))
    (argsort : list (option Z) -> list nat)
    (pd_to_numeric : column -> Try column)
    (api_key stn_id start_dt start_hh end_dt end_hh : string)
    (r1 r2 : Response) (j1 j2 rc1 rc2 items : json) :
  let q := query api_key stn_id start_dt start_hh end_dt end_hh in
  let fetch1 := fetch_asos_hourly net1 pd_DataFrame pd_to_datetime argsort
                  pd_to_numeric api_key stn_id start_dt start_hh end_dt end_hh in
  let fetch2 := fetch_asos_hourly net2 pd_DataFrame pd_to_datetime argsort
                  pd_to_numeric api_key stn_id start_dt start_hh end_dt end_hh in
  net1 BASE_URL q 60%Z = Ok r1 -> net2 BASE_URL q 60%Z = Ok r2 ->
  (status_code r1 < 400 \/ 600 <= status_code r1)%Z ->
  (status_code r2 < 400 \/ 600 <= status_code r2)%Z ->
  json_body r1 = Ok j1 -> json_body r2 = Ok j2 ->
  result_code_of j1 = Ok rc1 -> result_code_of j2 = Ok rc2 ->
  items_of j1 = Ok items -> items_of j2 = Ok items ->
  fst fetch1 = fst fetch2 /\
  exists h1 h2 rest,
    header_of j1 = Ok h1 /\ header_of j2 = Ok h2 /\
    snd fetch1 =
      Stdout REQUEST_LINE ::
        (if differs_from_str rc1 "00" then [Stdout (HEADER_LINE h1)] else [])
        ++ rest /\
    snd fetch2 =
      Stdout REQUEST_LINE ::
        (if differs_from_str rc2 "00" then [Stdout (HEADER_LINE h2)] else [])
        ++ rest.
Proof.
  intros q fetch1 fetch2 Hget1 Hget2 Hst1 Hst2 Hj1 Hj2 Hrc1 Hrc2 Hi1 Hi2.
  destruct (header_of_ok j1 rc1 Hrc1) as [h1 Hh1].
  destruct (header_of_ok j2 rc2 Hrc2) as [h2 Hh2].
  subst fetch1 fetch2.
  rewrite (fetch_on_reply net1 pd_DataFrame pd_to_datetime argsort pd_to_numeric
             _ _ _ _ _ _ r1 j1 rc1 h1 items
             Hget1 (raise_for_status_ok r1 Hst1) Hj1 Hrc1 Hh1 Hi1).
  rewrite (fetch_on_reply net2 pd_DataFrame pd_to_datetime argsort pd_to_numeric
             _ _ _ _ _ _ r2 j2 rc2 h2 items
             Hget2 (raise_for_status_ok r2 Hst2) Hj2 Hrc2 Hh2 Hi2).
  split; [reflexivity|].
  exists h1, h2,
    (snd (tabulate pd_DataFrame pd_to_datetime argsort pd_to_numeric items)).
  repeat split; assumption.
Qed.

Lemma fetch_result_code_not_fatal_witness :
  fst (Replies.fetched
         (Replies.serves 200
            (Ok (Replies.reply_with_code (JStr "00") Canned.three_items)))) =
  fst (Replies.fetched
         (Replies.serves 200
            (Ok (Replies.reply_with_code (JInt 0) Canned.three_items)))).
Proof.
  refine (proj1 (fetch_result_code_not_fatal
    (Replies.serves 200 (Ok (Replies.reply_with_code (JStr "00") Canned.three_items)))
    (Replies.serves 200 (Ok (Replies.reply_with_code (JInt 0) Canned.three_items)))
    Canned.DataFrame_of Canned.to_datetime Canned.in_order Canned.to_numeric
    (API_KEY CONFIG) (STATION_ID CONFIG) (START_DATE CONFIG) (START_HH CONFIG)
    (END_DATE CONFIG) (END_HH CONFIG)
    (mkResponse 200 (Ok (Replies.reply_with_code (JStr "00") Canned.three_items)))
    (mkResponse 200 (Ok (Replies.reply_with_code (JInt 0) Canned.three_items)))
    (Replies.reply_with_code (JStr "00") Canned.three_items)
    (Replies.reply_with_code (JInt 0) Canned.three_items)
    (JStr "00") (JInt 0) Canned.three_items
    eq_refl eq_refl _ _ eq_refl eq_refl eq_refl eq_refl eq_refl eq_refl));
    simpl; lia.
Defined.

(** ** The further properties on canned replies *)

Lemma main_transport_failure_witness :
  Replies.run (Replies.serves 503 (Ok (Canned.reply Canned.three_items))) Canned.fit
    = (Raise "HTTPError", [Stdout REQUEST_LINE]) /\
  Replies.run Replies.down Canned.fit
    = (Raise "ConnectionError", [Stdout REQUEST_LINE]) /\
  Replies.run (Replies.serves 200 (Err "JSONDecodeError")) Canned.fit
    = (Raise "JSONDecodeError", [Stdout REQUEST_LINE]).
Proof.
  split; [|split].
  - destruct (main_transport_failure
                (Replies.serves 503 (Ok (Canned.reply Canned.three_items)))
                Canned.DataFrame_of Canned.to_datetime Canned.in_order
                Canned.to_numeric Canned.fit Canned.mean Canned.to_csv
                Canned.pyplot CONFIG) as (_ & H & _).
    apply (H (mkResponse 503 (Ok (Canned.reply Canned.three_items))));
      [reflexivity | simpl; lia].
  - destruct (main_transport_failure Replies.down
                Canned.DataFrame_of Canned.to_datetime Canned.in_order
                Canned.to_numeric Canned.fit Canned.mean Canned.to_csv
                Canned.pyplot CONFIG) as (H & _).
    apply H. reflexivity.
  - destruct (main_transport_failure (Replies.serves 200 (Err "JSONDecodeError"))
                Canned.DataFrame_of Canned.to_datetime Canned.in_order
                Canned.to_numeric Canned.fit Canned.mean Canned.to_csv
                Canned.pyplot CONFIG) as (_ & _ & H).
    apply (H (mkResponse 200 (Err "JSONDecodeError")));
      [reflexivity | simpl; lia | reflexivity].
Defined.

Lemma fetch_frame_shape_witness :
  exists df t,
    Replies.fetched (Canned.answers 200 Replies.full_items) = (Val df, t) /\
    columns df = ["tm"; "stnNm"; "ws"; "wd"; "ta"; "hm"] /\
    nrows df = 2%nat /\
    exists items df0 t0,
      truthy items = true /\ Canned.DataFrame_of items = Ok df0 /\
      t = t0 ++ [Stdout (COLUMNS_LINE df)] /\
      columns df = columns df0 /\ nrows df = nrows df0 /\
      (forall n c, ~ In n CONVERTED -> getitem df n = Some c ->
         exists c0, getitem df0 n = Some c0 /\ same_dtype c c0).
Proof.
  eexists. eexists.
  split; [vm_compute; reflexivity|]. split; [reflexivity|]. split; [reflexivity|].
  edestruct (fetch_frame_shape (Canned.answers 200 Replies.full_items)
               Canned.DataFrame_of Canned.to_datetime Canned.in_order
               Canned.to_numeric
               (API_KEY CONFIG) (STATION_ID CONFIG) (START_DATE CONFIG)
               (START_HH CONFIG) (END_DATE CONFIG) (END_HH CONFIG))
    as [[Habs _] | H]; [vm_compute; reflexivity | discriminate Habs | exact H].
Defined.

Lemma main_fit_raises_witness :
  fst (Replies.run (Canned.answers 200 Replies.all_missing_items) Canned.fit)
    = Raise "ValueError" /\
  files_written
    (snd (Replies.run (Canned.answers 200 Replies.all_missing_items) Canned.fit))
    = ["asos_108_20240101_20241231.csv"].
Proof.
  edestruct (main_fit_raises (Canned.answers 200 Replies.all_missing_items)
               Canned.DataFrame_of Canned.to_datetime Canned.in_order
               Canned.to_numeric Canned.fit Canned.mean Canned.to_csv
               Canned.pyplot CONFIG)
    as (Hrun & _ & Hfiles);
    [vm_compute; reflexivity | reflexivity | reflexivity | reflexivity
     | reflexivity | reflexivity |].
  split; [|exact Hfiles].
  unfold Replies.run. rewrite Hrun. reflexivity.
Defined.

Lemma main_success_witness :
  fst (Replies.run (Canned.answers 200 Replies.full_items) Canned.fit) = Val tt /\
  files_written
    (snd (Replies.run (Canned.answers 200 Replies.full_items) Canned.fit))
    = ["asos_108_20240101_20241231.csv"; "asos_108_20240101_20241231_weibull.png"].
Proof.
  edestruct (main_success (Canned.answers 200 Replies.full_items)
               Canned.DataFrame_of Canned.to_datetime Canned.in_order
               Canned.to_numeric Canned.fit Canned.mean Canned.to_csv
               Canned.pyplot CONFIG)
    as (Hrun & _);
    [vm_compute; reflexivity | reflexivity | reflexivity | reflexivity
     | reflexivity | reflexivity | |].
  { right. intros call Hcall. simpl in Hcall.
    repeat (destruct Hcall as [<- | Hcall]; [reflexivity|]). contradiction. }
  split; [|reflexivity].
  unfold Replies.run. rewrite Hrun. reflexivity.
Defined.

Lemma main_reply_without_response_witness :
  Replies.run (Replies.serves 200 (Ok Replies.reply_other)) Canned.fit =
    (SysExit 1,
     [Stdout REQUEST_LINE; Stdout (HEADER_LINE JNull); Stdout ERROR_NO_DATA]).
Proof.
  refine (proj1 (main_reply_without_response
            (Replies.serves 200 (Ok Replies.reply_other))
            Canned.DataFrame_of Canned.to_datetime Canned.in_order
            Canned.to_numeric Canned.fit Canned.mean Canned.to_csv Canned.pyplot
            CONFIG
            (mkResponse 200 (Ok Replies.reply_other))
            [("error", JStr "SERVICE_KEY_IS_NOT_REGISTERED_ERROR")]
            eq_refl _ eq_refl eq_refl)).
  simpl. lia.
Defined.

Lemma main_malformed_reply_witness :
  items_of Replies.reply_items_string = Err "AttributeError" /\
  fst (Replies.run (Replies.serves 200 (Ok Replies.reply_items_string)) Canned.fit)
    = Raise "AttributeError".
Proof.
  split; [reflexivity|].
  refine (proj1 (main_malformed_reply
            (Replies.serves 200 (Ok Replies.reply_items_string))
            Canned.DataFrame_of Canned.to_datetime Canned.in_order
            Canned.to_numeric Canned.fit Canned.mean Canned.to_csv Canned.pyplot
            CONFIG
            (mkResponse 200 (Ok Replies.reply_items_string))
            Replies.reply_items_string eq_refl _ eq_refl _)).
  - simpl. lia.
  - right. exists "AttributeError". reflexivity.
Defined.
